(** * miner_gui.py: process supervision, output pipeline and launch resolution

  A shallow embedding of the process-lifecycle core of [miner_gui.py]
  (start / stop / kill of miner processes, the output pipeline, the
  argument resolver, the generated-config writer and the kill-by-name
  helper), with the properties of the specification stated over it.

  Modelling conventions.
  - A Python [str] is a [string]; every character is a code point in
    U+0000..U+00FF.  Case mapping, whitespace and word-character tests
    follow Python on that range.
  - Python dictionaries keyed by miner id are [gmap string _]; a key
    bound to [None] is [Some None], a missing key is [None].
  - Side effects on the GUI, the log, the operating system and Qt are
    recorded, in program order, in an event trace held by the state.
  - What the operating system, the user or the clock decide is read from
    an environment record of oracles.
  - Qt delivers the signals of a process from inside the blocking calls
    [waitForStarted] and [waitForFinished]; which signals arrive there is
    an oracle, and the connected slots run at that point.
  - The library functions the program calls ([re], [shlex.split],
    [html.escape], [json.dumps], [str] methods, UTF-8 decoding) are
    modelled after CPython; [os.path.expandvars], the code page codec and
    the path arithmetic of [pathlib] are oracles.
  - Writing a file always succeeds. *)

From Stdlib Require Import ZArith NArith String Ascii List Bool Lia.
From Stdlib.Strings Require Import Byte.
From Stdlib Require Import DecimalString.
From stdpp Require Import base option gmap strings list.

Open Scope string_scope.
Open Scope list_scope.

(** ** Python string primitives *)

Module PyStr.

Definition code (c : ascii) : nat := nat_of_ascii c.

Definition between (lo hi : nat) (c : ascii) : bool :=
  (lo <=? code c)%nat && (code c <=? hi)%nat.

(** [str.isspace] on one character. *)
Definition isspace (c : ascii) : bool :=
  between 9 13 c || between 28 32 c || between 133 133 c || between 160 160 c.

(** Word characters of [re] ([\w]): alphanumerics and the underscore. *)
Definition isword (c : ascii) : bool :=
  between 48 57 c || between 65 90 c || between 97 122 c || between 95 95 c
  || between 170 170 c || between 178 179 c || between 181 181 c
  || between 185 186 c || between 188 190 c
  || between 192 214 c || between 216 246 c || between 248 255 c.

Definition lower_char (c : ascii) : ascii :=
  if between 65 90 c || between 192 214 c || between 216 222 c
  then ascii_of_nat (code c + 32) else c.

(** Upper-casing; the three characters of the range whose upper case is
    not in the range (U+00B5, U+00DF, U+00FF) are left as they are. *)
Definition upper_char (c : ascii) : ascii :=
  if between 97 122 c || between 224 246 c || between 248 254 c
  then ascii_of_nat (code c - 32) else c.

Fixpoint map_chars (f : ascii -> ascii) (s : string) : string :=
  match s with
  | EmptyString => EmptyString
  | String c s' => String (f c) (map_chars f s')
  end.

Definition lower : string -> string := map_chars lower_char.
Definition upper : string -> string := map_chars upper_char.

Fixpoint lstrip (s : string) : string :=
  match s with
  | EmptyString => EmptyString
  | String c s' => if isspace c then lstrip s' else s
  end.

Fixpoint rstrip (s : string) : string :=
  match s with
  | EmptyString => EmptyString
  | String c s' =>
      match rstrip s' with
      | EmptyString => if isspace c then EmptyString else String c EmptyString
      | t => String c t
      end
  end.

(** [s.strip()] *)
Definition strip (s : string) : string := rstrip (lstrip s).

(** [needle in s] *)
Fixpoint contains (needle s : string) : bool :=
  String.prefix needle s ||
  match s with
  | EmptyString => false
  | String _ s' => contains needle s'
  end.

Fixpoint replace_go (old new : string) (skip : nat) (s : string) : string :=
  match s with
  | EmptyString => match old with EmptyString => new | _ => EmptyString end
  | String c s' =>
      match skip with
      | S k => replace_go old new k s'
      | O =>
          if String.prefix old s
          then new +:+
               match old with
               | EmptyString => String c (replace_go old new 0 s')
               | String _ old' => replace_go old new (String.length old') s'
               end
          else String c (replace_go old new 0 s')
      end
  end.

(** [s.replace(old, new)]: every non-overlapping occurrence, left to right. *)
Definition replace (old new s : string) : string := replace_go old new 0 s.

Definition dquote : string := String (ascii_of_nat 34) EmptyString.

(** [html.escape(s)] with its default [quote=True]. *)
Fixpoint html_escape (s : string) : string :=
  match s with
  | EmptyString => EmptyString
  | String c s' =>
      (match code c with
       | 38 => "&amp;"
       | 60 => "&lt;"
       | 62 => "&gt;"
       | 34 => "&quot;"
       | 39 => "&#x27;"
       | _ => String c EmptyString
       end) +:+ html_escape s'
  end.

(** [sep.join(l)] *)
Fixpoint join (sep : string) (l : list string) : string :=
  match l with
  | [] => EmptyString
  | [x] => x
  | x :: l' => x +:+ sep +:+ join sep l'
  end.

End PyStr.

(** ** Regular expressions ([re]) *)

Module Re.
Import PyStr.

Inductive regex : Type :=
| Eps
| Lit (c : ascii)
| Cls (ranges : list (ascii * ascii))
| Seq (r1 r2 : regex)
| Alt (r1 r2 : regex)
| Star (r : regex)
| Group (n : nat) (r : regex)
| WordB
| Bol
| Eol.

Definition Plus (r : regex) : regex := Seq r (Star r).
Definition Opt (r : regex) : regex := Alt r Eps.

Fixpoint Str (s : string) : regex :=
  match s with
  | EmptyString => Eps
  | String c EmptyString => Lit c
  | String c s' => Seq (Lit c) (Str s')
  end.

(** [\s] *)
Definition Space : regex :=
  Cls [(ascii_of_nat 9, ascii_of_nat 13); (ascii_of_nat 28, ascii_of_nat 32);
       (ascii_of_nat 133, ascii_of_nat 133); (ascii_of_nat 160, ascii_of_nat 160)].

(** A position of the matcher: the character before it, the text after
    it, and the groups captured so far (latest first). *)
Record mstate : Type := MState {
  ms_prev : option ascii;
  ms_rest : string;
  ms_caps : list (nat * string)
}.

Definition in_ranges (rs : list (ascii * ascii)) (c : ascii) : bool :=
  existsb (fun r => between (code (fst r)) (code (snd r)) c) rs.

Definition lit_ok (ic : bool) (c a : ascii) : bool :=
  if ic then Ascii.eqb (lower_char a) (lower_char c) else Ascii.eqb a c.

Definition cls_ok (ic : bool) (rs : list (ascii * ascii)) (a : ascii) : bool :=
  in_ranges rs a
  || (ic && (in_ranges rs (lower_char a) || in_ranges rs (upper_char a))).

Definition step_char (ok : ascii -> bool) (st : mstate) : list mstate :=
  match ms_rest st with
  | String a s' => if ok a then [MState (Some a) s' (ms_caps st)] else []
  | EmptyString => []
  end.

Definition word_opt (o : option ascii) : bool :=
  match o with Some c => isword c | None => false end.

Definition next_char (s : string) : option ascii :=
  match s with String a _ => Some a | EmptyString => None end.

Definition consumed (st st' : mstate) : string :=
  String.substring 0 (String.length (ms_rest st) - String.length (ms_rest st'))
                   (ms_rest st).

Definition newline : ascii := ascii_of_nat 10.

(** Greedy repetition of one matching step: the ends after as many
    rounds as possible come first, the position itself last. A round
    that consumes nothing is not repeated. *)
Fixpoint star_loop (step : mstate -> list mstate) (fuel : nat) (st : mstate)
  : list mstate :=
  match fuel with
  | O => [st]
  | S f =>
      flat_map
        (fun st' =>
           if (String.length (ms_rest st') <? String.length (ms_rest st))%nat
           then star_loop step f st' else [])
        (step st)
      ++ [st]
  end.

(** All the ways [r] can match at [st], in the order a backtracking
    matcher tries them (greedy repetition, left alternative first).
    [ic] is [re.IGNORECASE]. *)
Fixpoint ends (ic : bool) (r : regex) (st : mstate) {struct r} : list mstate :=
  match r with
  | Eps => [st]
  | Lit c => step_char (lit_ok ic c) st
  | Cls rs => step_char (cls_ok ic rs) st
  | Seq r1 r2 => flat_map (ends ic r2) (ends ic r1 st)
  | Alt r1 r2 => ends ic r1 st ++ ends ic r2 st
  | Star r1 => star_loop (ends ic r1) (S (String.length (ms_rest st))) st
  | Group n r1 =>
      map (fun st' =>
             MState (ms_prev st') (ms_rest st') ((n, consumed st st') :: ms_caps st'))
          (ends ic r1 st)
  | WordB =>
      if xorb (word_opt (ms_prev st)) (word_opt (next_char (ms_rest st)))
      then [st] else []
  | Bol => match ms_prev st with None => [st] | Some _ => [] end
  | Eol =>
      match ms_rest st with
      | EmptyString => [st]
      | String a EmptyString => if Ascii.eqb a newline then [st] else []
      | _ => []
      end
  end.

(** The match found at one starting position, if any. *)
Definition match_at (ic : bool) (r : regex) (prev : option ascii) (s : string)
  : option mstate :=
  head (ends ic r (MState prev s [])).

(** The truth value of a match object or [None]. *)
Definition matched (m : option mstate) : bool :=
  match m with Some _ => true | None => false end.

(** [rx.match(s)] *)
Definition re_match (ic : bool) (r : regex) (s : string) : option mstate :=
  match_at ic r None s.

Fixpoint search_from (ic : bool) (r : regex) (prev : option ascii) (s : string)
  : option mstate :=
  match match_at ic r prev s with
  | Some m => Some m
  | None =>
      match s with
      | EmptyString => None
      | String c s' => search_from ic r (Some c) s'
      end
  end.

(** [rx.search(s)] *)
Definition re_search (ic : bool) (r : regex) (s : string) : option mstate :=
  search_from ic r None s.

(** [m.group(n)] for a group that took part in the match. *)
Fixpoint group (n : nat) (caps : list (nat * string)) : string :=
  match caps with
  | [] => EmptyString
  | (k, v) :: caps' => if (k =? n)%nat then v else group n caps'
  end.

Fixpoint sub_empty_go (ic : bool) (r : regex) (skip : nat)
         (prev : option ascii) (s : string) : string :=
  match s with
  | EmptyString => EmptyString
  | String c s' =>
      match skip with
      | S k => sub_empty_go ic r k (Some c) s'
      | O =>
          match match_at ic r prev s with
          | Some m =>
              match (String.length s - String.length (ms_rest m))%nat with
              | O => String c (sub_empty_go ic r 0 (Some c) s')
              | S k => sub_empty_go ic r k (Some c) s'
              end
          | None => String c (sub_empty_go ic r 0 (Some c) s')
          end
      end
  end.

(** [rx.sub] with the empty replacement: delete every match. *)
Definition sub_empty (ic : bool) (r : regex) (s : string) : string :=
  sub_empty_go ic r 0 None s.

Fixpoint split_go (ic : bool) (r : regex) (skip : nat)
         (prev : option ascii) (cur : string) (s : string) : list string :=
  match s with
  | EmptyString => [cur]
  | String c s' =>
      match skip with
      | S k => split_go ic r k (Some c) cur s'
      | O =>
          match match_at ic r prev s with
          | Some m =>
              match (String.length s - String.length (ms_rest m))%nat with
              | O => split_go ic r 0 (Some c) (cur +:+ String c EmptyString) s'
              | S k =>
                  cur :: group 1 (ms_caps m)
                      :: split_go ic r k (Some c) EmptyString s'
              end
          | None => split_go ic r 0 (Some c) (cur +:+ String c EmptyString) s'
          end
      end
  end.

(** [rx.split(s)] for a pattern with exactly one group that cannot match
    the empty string: text, group, text, group, ..., text. *)
Definition split1 (ic : bool) (r : regex) (s : string) : list string :=
  split_go ic r 0 None EmptyString s.

End Re.

(** ** Output pipeline: ANSI handling and keyword colouring *)

Module Output.
Import PyStr Re.

Definition esc : ascii := ascii_of_nat 27.

(** [ANSI_ESCAPE_RE]: ESC, an opening bracket, parameter characters
    0 to ?, intermediate characters space to /, one final character
    @ to ~. *)
Definition ANSI_ESCAPE_RE : regex :=
  Seq (Lit esc) (Seq (Lit "[")
    (Seq (Star (Cls [("0", "?")]%char))
      (Seq (Star (Cls [(" ", "/")]%char)) (Cls [("@", "~")]%char)))).

(** [ANSI_SGR_RE]: ESC, an opening bracket, a group of digits and
    semicolons, the letter m. *)
Definition ANSI_SGR_RE : regex :=
  Seq (Lit esc) (Seq (Lit "[")
    (Seq (Group 1 (Star (Cls [("0", "9"); (";", ";")]%char))) (Lit "m"))).

Definition ANSI_30_37 (c : Z) : option string :=
  match c with
  | 30 => Some "#000000" | 31 => Some "#cc0000" | 32 => Some "#00aa00"
  | 33 => Some "#aa8800" | 34 => Some "#0000cc" | 35 => Some "#aa00aa"
  | 36 => Some "#00aaaa" | 37 => Some "#cccccc"
  | _ => None
  end%Z.

Definition ANSI_90_97 (c : Z) : option string :=
  match c with
  | 90 => Some "#666666" | 91 => Some "#ff4444" | 92 => Some "#44ff44"
  | 93 => Some "#ffff44" | 94 => Some "#4444ff" | 95 => Some "#ff44ff"
  | 96 => Some "#44ffff" | 97 => Some "#ffffff"
  | _ => None
  end%Z.

Definition strip_ansi (s : string) : string :=
  replace (String esc EmptyString) "" (sub_empty false ANSI_ESCAPE_RE s).

Definition hex_digit (n : Z) : string :=
  String.substring (Z.to_nat n) 1 "0123456789abcdef".

(** Two lower-case hexadecimal digits (format [02x]) for [0 <= n < 256]. *)
Definition hex2 (n : Z) : string := (hex_digit (n / 16) +:+ hex_digit (n mod 16))%Z.

Definition color_256 (n : Z) : string :=
  (if (0 <=? n) && (n <=? 15) then
     match n with
     | 0 => "#000000" | 1 => "#800000" | 2 => "#008000" | 3 => "#808000"
     | 4 => "#000080" | 5 => "#800080" | 6 => "#008080" | 7 => "#c0c0c0"
     | 8 => "#808080" | 9 => "#ff0000" | 10 => "#00ff00" | 11 => "#ffff00"
     | 12 => "#0000ff" | 13 => "#ff00ff" | 14 => "#00ffff" | _ => "#ffffff"
     end
   else if (16 <=? n) && (n <=? 231) then
     let n := n - 16 in
     let r := (n / 36) mod 6 in
     let g := (n / 6) mod 6 in
     let b := n mod 6 in
     let v := fun x : Z => if 0 <? x then 55 + x * 40 else 0 in
     "#" +:+ hex2 (v r) +:+ hex2 (v g) +:+ hex2 (v b)
   else if (232 <=? n) && (n <=? 255) then
     let gray := 8 + (n - 232) * 10 in
     "#" +:+ hex2 gray +:+ hex2 gray +:+ hex2 gray
   else "#cccccc")%Z.

Fixpoint digits_value (acc : Z) (s : string) : option Z :=
  match s with
  | EmptyString => Some acc
  | String c s' =>
      if between 48 57 c
      then digits_value (acc * 10 + Z.of_nat (code c - 48))%Z s'
      else None
  end.

(** [int(s)] on the pieces the SGR pattern can capture (ASCII digits);
    [None] is [ValueError], which is also what more than 4300 digits
    give. *)
Definition parse_int (s : string) : option Z :=
  match s with
  | EmptyString => None
  | _ => if (4300 <? String.length s)%nat then None else digits_value 0 s
  end.

(** [s.split(sep)] for a one-character separator. *)
Fixpoint split_on (sep : ascii) (cur : string) (s : string) : list string :=
  match s with
  | EmptyString => [cur]
  | String c s' =>
      if Ascii.eqb c sep then cur :: split_on sep EmptyString s'
      else split_on sep (cur +:+ String c EmptyString) s'
  end.

Definition nonempty (s : string) : bool :=
  match s with EmptyString => false | _ => true end.

(** The [while idx < len(codes)] loop of [ansi_to_html_line]; [codes] is
    the part of the list from [idx] on. *)
Fixpoint sgr_codes (codes : list string) (fg : option string) {struct codes}
  : option string :=
  match codes with
  | [] => fg
  | c0 :: rest =>
      match parse_int c0 with
      | None => sgr_codes rest fg
      | Some c =>
          if (c =? 0)%Z then sgr_codes rest None
          else
            match ANSI_30_37 c with
            | Some col => sgr_codes rest (Some col)
            | None =>
                match ANSI_90_97 c with
                | Some col => sgr_codes rest (Some col)
                | None =>
                    if (c =? 39)%Z then sgr_codes rest None
                    else if (c =? 38)%Z then
                      match rest with
                      | five :: n0 :: rest' =>
                          if String.eqb five "5" then
                            sgr_codes rest'
                              (match parse_int n0 with
                               | Some n => Some (color_256 n)
                               | None => fg
                               end)
                          else sgr_codes rest fg
                      | _ => sgr_codes rest fg
                      end
                    else sgr_codes rest fg
                end
            end
      end
  end.

Definition span_open_colored (color : string) : string :=
  "<span style=" +:+ dquote +:+ "color:" +:+ color +:+ dquote +:+ ">".

(** The [for i in range(0, len(parts), 2)] loop of [ansi_to_html_line]. *)
Fixpoint sgr_parts (parts : list string) (fg : option string) : string :=
  match parts with
  | [] => EmptyString
  | text :: rest =>
      (if nonempty text then
         match fg with
         | Some col => span_open_colored col +:+ html_escape text +:+ "</span>"
         | None => html_escape text
         end
       else EmptyString)
      +:+
      match rest with
      | [] => EmptyString
      | code_str :: rest' =>
          let codes := filter (fun c => nonempty c = true)
                              (split_on ";" EmptyString (strip code_str)) in
          let codes := match codes with [] => ["0"] | _ => codes end in
          sgr_parts rest' (sgr_codes codes fg)
      end
  end.

Definition span_plain (body : string) : string :=
  "<span style=" +:+ dquote
    +:+ "font-family:Consolas, monospace; white-space: pre;"
    +:+ dquote +:+ ">" +:+ body +:+ "</span>".

Definition span_colored (color body : string) : string :=
  "<span style=" +:+ dquote
    +:+ "font-family:Consolas, monospace; white-space: pre; color:" +:+ color
    +:+ dquote +:+ ">" +:+ body +:+ "</span>".

Definition ansi_to_html_line (s : string) : string :=
  span_plain (sgr_parts (split1 false ANSI_SGR_RE s) None).

Definition word (kw : string) : regex := Seq WordB (Seq (Str kw) WordB).

(** [XMRIG_RULES]: every pattern is compiled with [re.IGNORECASE]. *)
Definition XMRIG_RULES : list (regex * string) :=
  [ (word "accepted", "#44ff44");
    (word "new job", "#ff44ff");
    (word "rejected", "#ff4444");
    (Alt (word "error") (Alt (word "failed") (word "exception")), "#ff4444");
    (Alt (word "difficulty") (Alt (word "hashrate") (word "share")), "#ffff44") ].

(** The [for rx, color in XMRIG_RULES] loop: colour of the first rule
    whose pattern is found in the line. *)
Fixpoint first_rule (rules : list (regex * string)) (line : string)
  : option string :=
  match rules with
  | [] => None
  | (rx, color) :: rules' =>
      match re_search true rx line with
      | Some _ => Some color
      | None => first_rule rules' line
      end
  end.

Definition csi : string := String esc "[".

Definition line_to_html_with_rules (line miner_id : string) : string :=
  if contains csi line then ansi_to_html_line line
  else
    let clean := html_escape line in
    match (if String.eqb (lower miner_id) "xmrig"
           then first_rule XMRIG_RULES line else None) with
    | Some color => span_colored color clean
    | None => span_plain clean
    end.

(** [_XMRIG_SPEED_RE] and [_XMRIG_HASHRATE_RE], both [re.IGNORECASE]. *)
Definition num : regex := Plus (Cls [("0", "9"); (".", ".")]%char).
Definition unit_re : regex :=
  Seq (Opt (Cls [("k", "k"); ("M", "M"); ("G", "G"); ("T", "T")]%char)) (Str "H/s").

Definition _XMRIG_SPEED_RE : regex :=
  Seq (Str "speed") (Seq (Plus Space)
    (Seq (Opt (Seq (Str "10s/60s/15m") (Plus Space)))
      (Seq (Group 1 num) (Seq (Star Space) (Group 2 unit_re))))).

Definition _XMRIG_HASHRATE_RE : regex :=
  Seq (Str "hashrate") (Seq (Star Space)
    (Seq (Opt (Cls [(":", ":"); ("=", "=")]%char))
      (Seq (Star Space) (Seq (Group 1 num) (Seq (Star Space) (Group 2 unit_re)))))).

(** [SPEED.search(s) or HASHRATE.search(s)] reduced to what the caller
    reads: [(group(1).strip(), group(2).strip())]. *)
Definition hashrate_match (s : string) : option (string * string) :=
  match (match re_search true _XMRIG_SPEED_RE s with
         | Some m => Some m
         | None => re_search true _XMRIG_HASHRATE_RE s
         end) with
  | Some m => Some (strip (group 1 (ms_caps m)), strip (group 2 (ms_caps m)))
  | None => None
  end.

End Output.

(** ** Exceptions *)

(** The Python exceptions the modelled code can raise. *)
Inductive exn : Type :=
| UnicodeDecodeError
| AttributeError (what : string)
| ValueError (what : string)
| OtherException (what : string).

Inductive result (A : Type) : Type :=
| Ok (a : A)
| Raise (e : exn).
Arguments Ok {A} a.
Arguments Raise {A} e.

(** ** Decoding process output *)

Module Decode.

(** The three codecs [decode_process_bytes] calls, over any text type. *)
Record Codecs (text : Type) : Type := {
  empty_text : text;
  utf8_strict : list byte -> result text;    (* b.decode of utf-8 *)
  mbcs_replace : list byte -> result text;   (* b.decode of mbcs, errors=replace *)
  utf8_replace : list byte -> result text    (* b.decode(errors=replace) *)
}.
Arguments empty_text {text} c.
Arguments utf8_strict {text} c b.
Arguments mbcs_replace {text} c b.
Arguments utf8_replace {text} c b.

Definition decode_process_bytes {text : Type} (cd : Codecs text) (win32 : bool)
           (b : list byte) : result text :=
  match b with
  | [] => Ok (empty_text cd)
  | _ =>
      match utf8_strict cd b with
      | Ok t => Ok t
      | Raise UnicodeDecodeError =>
          if win32 then
            match mbcs_replace cd b with
            | Ok t => Ok t
            | Raise _ => utf8_replace cd b
            end
          else utf8_replace cd b
      | Raise e => Raise e
      end
  end.

(** *** A concrete UTF-8 codec over code points *)

Definition cont (b : N) : bool := ((128 <=? b) && (b <=? 191))%N.

(** One decoding step on a non-empty input. *)
Inductive utf8_step : Type :=
| Cp (cp : N) (rest : list N)      (* a code point was decoded *)
| Bad (rest : list N).             (* an error; decoding resumes at [rest] *)

Definition utf8_one (b0 : N) (r0 : list N) : utf8_step :=
  (if b0 <? 128 then Cp b0 r0
   else if b0 <? 194 then Bad r0
   else if b0 <? 224 then
     match r0 with
     | [] => Bad []
     | b1 :: r1 =>
         if cont b1 then Cp ((b0 - 192) * 64 + (b1 - 128)) r1 else Bad r0
     end
   else if b0 <? 240 then
     match r0 with
     | [] => Bad []
     | b1 :: r1 =>
         if negb (cont b1) || (if b1 <? 160 then b0 =? 224 else b0 =? 237)
         then Bad r0
         else
           match r1 with
           | [] => Bad []
           | b2 :: r2 =>
               if cont b2
               then Cp ((b0 - 224) * 4096 + (b1 - 128) * 64 + (b2 - 128)) r2
               else Bad r1
           end
     end
   else if b0 <? 245 then
     match r0 with
     | [] => Bad []
     | b1 :: r1 =>
         if negb (cont b1) || (if b1 <? 144 then b0 =? 240 else b0 =? 244)
         then Bad r0
         else
           match r1 with
           | [] => Bad []
           | b2 :: r2 =>
               if negb (cont b2) then Bad r1
               else
                 match r2 with
                 | [] => Bad []
                 | b3 :: r3 =>
                     if cont b3
                     then Cp ((b0 - 240) * 262144 + (b1 - 128) * 4096
                              + (b2 - 128) * 64 + (b3 - 128)) r3
                     else Bad r2
                 end
           end
     end
   else Bad r0)%N.

Definition replacement : N := 65533%N.

Fixpoint utf8_run (lossy : bool) (fuel : nat) (bs : list N) : option (list N) :=
  match bs with
  | [] => Some []
  | b0 :: r0 =>
      match fuel with
      | O => None
      | S fuel' =>
          match utf8_one b0 r0 with
          | Cp cp rest => option_map (cons cp) (utf8_run lossy fuel' rest)
          | Bad rest =>
              if lossy
              then option_map (cons replacement) (utf8_run lossy fuel' rest)
              else None
          end
      end
  end.

Definition bytes_N (b : list byte) : list N := map Byte.to_N b.

Definition utf8_strict_cp (b : list byte) : result (list N) :=
  match utf8_run false (length b) (bytes_N b) with
  | Some t => Ok t
  | None => Raise UnicodeDecodeError
  end.

Definition utf8_replace_cp (b : list byte) : result (list N) :=
  match utf8_run true (length b) (bytes_N b) with
  | Some t => Ok t
  | None => Raise (OtherException "decoder ran out of steps")
  end.

(** The codecs of a platform, given what its legacy code page does. *)
Definition cp_codecs (mbcs : list byte -> result (list N)) : Codecs (list N) :=
  {| empty_text := [];
     utf8_strict := utf8_strict_cp;
     mbcs_replace := mbcs;
     utf8_replace := utf8_replace_cp |}.

(** Code page 1252 style single-byte decoding, as a sample legacy page:
    every byte is its own code point. *)
Definition latin1_mbcs (b : list byte) : result (list N) := Ok (bytes_N b).

End Decode.

(** ** JSON documents *)

Module Json.
Import PyStr.

#[local] Unset Elimination Schemes.
Inductive json : Type :=
| JBool (b : bool)
| JStr (s : string)
| JList (items : list json)
| JObj (fields : list (string * json)).
#[local] Set Elimination Schemes.

Definition nl : string := String (ascii_of_nat 10) EmptyString.

Fixpoint pad (n : nat) : string :=
  match n with O => EmptyString | S k => " " +:+ pad k end.

Definition escape_char (c : ascii) : string :=
  match code c with
  | 34 => "\" +:+ dquote
  | 92 => "\\"
  | 10 => "\n"
  | 13 => "\r"
  | 9 => "\t"
  | 8 => "\b"
  | 12 => "\f"
  | _ =>
      if between 32 126 c then String c EmptyString
      else "\u00" +:+ Output.hex2 (Z.of_nat (code c))
  end.

Fixpoint escape (s : string) : string :=
  match s with
  | EmptyString => EmptyString
  | String c s' => escape_char c +:+ escape s'
  end.

Definition quoted (s : string) : string := dquote +:+ escape s +:+ dquote.

(** [json.dumps(j, indent=2)] at nesting depth [ind] (in spaces). *)
Fixpoint dumps (ind : nat) (j : json) {struct j} : string :=
  match j with
  | JBool true => "true"
  | JBool false => "false"
  | JStr s => quoted s
  | JList [] => "[]"
  | JList items =>
      "[" +:+ nl
      +:+ (fix go (l : list json) : string :=
             match l with
             | [] => EmptyString
             | x :: l' =>
                 pad (ind + 2) +:+ dumps (ind + 2) x
                 +:+ match l' with [] => EmptyString | _ => "," +:+ nl end
                 +:+ go l'
             end) items
      +:+ nl +:+ pad ind +:+ "]"
  | JObj [] => "{}"
  | JObj fields =>
      "{" +:+ nl
      +:+ (fix go (l : list (string * json)) : string :=
             match l with
             | [] => EmptyString
             | (k, x) :: l' =>
                 pad (ind + 2) +:+ quoted k +:+ ": " +:+ dumps (ind + 2) x
                 +:+ match l' with [] => EmptyString | _ => "," +:+ nl end
                 +:+ go l'
             end) fields
      +:+ nl +:+ pad ind +:+ "}"
  end.

End Json.

(** ** Operating-system processes and the kill helpers *)

Module Sys.
Import PyStr Re.

(** One row of the process table. [sp_protected] says that killing the
    process raises [psutil.Error] (access denied, already gone). *)
Record SysProc : Type := MkSysProc {
  sp_pid : Z;
  sp_ppid : Z;
  sp_name : option string;
  sp_protected : bool
}.

(** [SAFE_EXE_NAME_RE]: start of string, one or more of [A-Za-z0-9_.-],
    a dot, the letters exe, end of string; compiled with
    [re.IGNORECASE]. *)
Definition SAFE_EXE_NAME_RE : regex :=
  Seq Bol
    (Seq (Plus (Cls [("A", "Z"); ("a", "z"); ("0", "9");
                     ("_", "_"); (".", "."); ("-", "-")]%char))
       (Seq (Str ".exe") Eol)).

(** The [for p in psutil.process_iter] loop of [kill_by_name] over a
    snapshot of the table: the count so far and the surviving rows. *)
Fixpoint kill_loop (exe_name_l : string) (snapshot : list SysProc)
         (killed : Z) (alive : list SysProc) : Z * list SysProc :=
  match snapshot with
  | [] => (killed, alive)
  | p :: ps =>
      let name := lower (match sp_name p with Some n => n | None => "" end) in
      if String.eqb name exe_name_l then
        if sp_protected p
        then kill_loop exe_name_l ps killed (alive ++ [p])
        else kill_loop exe_name_l ps (killed + 1)%Z alive
      else kill_loop exe_name_l ps killed (alive ++ [p])
  end.

(** Returns the count and the process table afterwards. *)
Definition kill_by_name (exe_name : string) (tbl : list SysProc)
  : Z * list SysProc :=
  let exe_name := strip exe_name in
  match re_match true SAFE_EXE_NAME_RE exe_name with
  | None => (0%Z, tbl)
  | Some _ => kill_loop (lower exe_name) tbl 0%Z []
  end.

Definition mem (x : Z) (l : list Z) : bool := existsb (Z.eqb x) l.

(** Pids reachable from [seen] through parent links. *)
Fixpoint descendants (fuel : nat) (tbl : list SysProc) (seen : list Z) : list Z :=
  match fuel with
  | O => seen
  | S fuel' =>
      match filter (fun p => mem (sp_ppid p) seen && negb (mem (sp_pid p) seen)) tbl with
      | [] => seen
      | new => descendants fuel' tbl (seen ++ map sp_pid new)
      end
  end.

(** [parent.children(recursive=True)] *)
Definition children (tbl : list SysProc) (pid : Z) : list Z :=
  filter (fun q => negb (Z.eqb q pid)) (descendants (length tbl) tbl [pid]).

(** Kill every listed pid; a kill that raises is swallowed. *)
Definition kill_pids (targets : list Z) (tbl : list SysProc) : list SysProc :=
  filter (fun p => negb (mem (sp_pid p) targets && negb (sp_protected p))) tbl.

Definition kill_process_tree (pid : Z) (include_parent : bool)
           (tbl : list SysProc) : list SysProc :=
  if existsb (fun p => Z.eqb (sp_pid p) pid) tbl then
    let tbl := kill_pids (children tbl pid) tbl in
    if include_parent then kill_pids [pid] tbl else tbl
  else tbl.

End Sys.

(** ** Environment *)

Definition handle : Type := nat.

(** A signal a [QProcess] delivers to its connected slots. *)
Inductive QtSignal : Type :=
| SigError (err : string) (err_str : string)
| SigFinished (exit_code : Z).

(** The outcome of [proc.start] followed by [proc.waitForStarted(5000)]. *)
Inductive Launch : Type :=
| Launched (pid : option Z)
| LaunchFailed (err_str : string) (signals : list QtSignal).

(** Everything the program reads from outside itself. *)
Record Env : Type := {
win32 : bool;                                (* sys.platform == win32 *)
app_dir : string;                            (* str(APP_DIR) *)
now_date : string;                           (* strftime %Y-%m-%d *)
now_time : string;                           (* strftime %H:%M:%S *)
now_datetime : string;                       (* strftime %Y-%m-%d_%H-%M-%S *)
expandvars : string -> string;               (* os.path.expandvars *)
environ : string -> option string;           (* os.environ.get *)
path_exists : string -> bool;                (* os.path.exists *)
path_is_absolute : string -> bool;           (* Path(p).is_absolute() *)
path_resolve_in_app : string -> string;      (* str((APP_DIR / p).resolve()) *)
path_str : string -> string;                 (* str(Path(p)) *)
path_parent_resolved : string -> string;     (* str(Path(p).parent.resolve()) *)
path_parent_join : string -> string -> string; (* str(Path(p).parent / name) *)
path_join : list string -> string;           (* os.path.join *)
list_bats : string -> list (string * string); (* sorted glob: (name, str(path)) *)
choose_item : string -> list string -> option string; (* QInputDialog.getItem *)
suspend_process : Z -> option string;        (* None, or the exception text *)
resume_process : Z -> option string;         (* None, or the exception text *)
launch : string -> list string -> string -> Launch;
wait_finished : handle -> list QtSignal;     (* delivered inside waitForFinished *)
read_all : handle -> list byte;              (* proc.readAllStandardOutput() *)
codecs : Decode.Codecs string
}.

(** ** Argument expansion *)

Module Resolve.
Import PyStr.

(** A [pathlib.Path] as far as the program looks at it. *)
Record Path : Type := MkPath {
  p_str : string;      (* str(p) *)
  p_name : string      (* p.name *)
}.

Definition placeholders (env : Env) (xmrig_config_path : option Path)
  : list (string * string) :=
  [ ("{APP_DIR}", app_dir env);
    ("{DATE}", now_date env);
    ("{TIME}", now_time env);
    ("{DATETIME}", now_datetime env);
    ("{XMRIG_CONFIG}",
      match xmrig_config_path with Some p => p_str p | None => "" end);
    ("{XMRIG_CONFIG_NAME}",
      match xmrig_config_path with
      | Some p => p_name p
      | None => "config.generated.json"
      end) ].

(** The [for k, v in repl.items()] loop. *)
Definition substitute (repl : list (string * string)) (s : string) : string :=
  fold_left (fun out kv => replace (fst kv) (snd kv) out) repl s.

Definition expand_placeholders (env : Env) (s : string)
           (xmrig_config_path : option Path) : string :=
  expandvars env (substitute (placeholders env xmrig_config_path) s).

(** *** [shlex.split(s, posix=False)] *)

Inductive lex_state : Type :=
| InSpace                 (* state ' ' *)
| InWord                  (* state 'a' *)
| InQuote (q : ascii).    (* state is the opening quote *)

Definition shlex_whitespace (c : ascii) : bool :=
  between 32 32 c || between 9 9 c || between 13 13 c || between 10 10 c.

Definition shlex_quote (c : ascii) : bool :=
  between 39 39 c || between 34 34 c.

Definition snoc (s : string) (c : ascii) : string := s +:+ String c EmptyString.

(** The tokens read from [s] in lexer state [st] with the current token
    [tok]; [None] is [ValueError] (no closing quotation). *)
Fixpoint shlex_tokens (st : lex_state) (tok : string) (s : string)
  : option (list string) :=
  match s with
  | EmptyString =>
      match st with
      | InQuote _ => None
      | InWord => Some [tok]
      | InSpace => Some []
      end
  | String c s' =>
      match st with
      | InSpace =>
          if shlex_whitespace c then shlex_tokens InSpace EmptyString s'
          else if shlex_quote c then shlex_tokens (InQuote c) (String c EmptyString) s'
          else shlex_tokens InWord (String c EmptyString) s'
      | InQuote q =>
          if Ascii.eqb c q
          then option_map (cons (snoc tok c)) (shlex_tokens InSpace EmptyString s')
          else shlex_tokens (InQuote q) (snoc tok c) s'
      | InWord =>
          if shlex_whitespace c
          then option_map (cons tok) (shlex_tokens InSpace EmptyString s')
          else shlex_tokens InWord (snoc tok c) s'
      end
  end.

Definition shlex_split (s : string) : option (list string) :=
  shlex_tokens InSpace EmptyString s.

(** [None] is the [ValueError] of [shlex.split]. *)
Definition split_args (arg_str : string) : option (list string) :=
  let arg_str := strip arg_str in
  match arg_str with
  | EmptyString => Some []
  | _ => shlex_split arg_str
  end.

End Resolve.

(** ** The supervisor *)

Module Supervisor.
Import PyStr Output Resolve Sys Json.

(** [QProcess.ProcessState] *)
Inductive QState : Type := NotRunning | Starting | Running.

(** One entry of [settings[miners]]. A missing or null text field is the
    empty string; [m_name] is [None] when the key is missing. *)
Record Miner : Type := MkMiner {
  m_id : string;
  m_name : option string;
  m_type : string;
  m_path : string;
  m_args : string;
  m_workdir : string;
  m_kill_names : list string;
  m_enabled : bool;
  m_scripts_dir : string;
  m_active_scripts : list string
}.

(** [settings[xmrig]] *)
Record XmrigSettings : Type := MkXmrig {
  xm_auto_config : bool;
  xm_pool : string;
  xm_wallet : string;
  xm_worker : string;
  xm_pass : string;
  xm_extra : string
}.

Inductive MsgKind : Type := Critical | Warning | Information.

(** What the program does to the outside, in program order. *)
Inductive Event : Type :=
| MsgBox (kind : MsgKind) (title text : string)     (* QMessageBox *)
| LogGlobal (msg : string)                          (* self._log_global *)
| TabLog (miner_id text : string)                   (* logw.append *)
| TabHtml (miner_id html : string)                  (* append_html *)
| UpdateButtons                                     (* self._update_all_buttons *)
| ApplyCoinSettings                                 (* self._apply_coin_settings *)
| ScriptsCollapse                                   (* self._scripts_set_collapsed(True) *)
| SaveSettings                                      (* save_settings, _scripts_reload *)
| ProcStart (h : handle) (exe : string) (args : list string) (wdir : string)
| ProcTerminate (h : handle)                        (* proc.terminate() *)
| ProcKill (h : handle)                             (* proc.kill() *)
| WaitForFinished (h : handle) (ms : Z)             (* proc.waitForFinished *)
| TimerStart (miner_id : string) (ms : Z)           (* single-shot QTimer *)
| OsSuspend (pid : Z)                               (* suspend_process *)
| OsResume (pid : Z)                                (* resume_process *)
| KillTree (pid : Z)                                (* kill_process_tree *)
| KillByName (name : string) (killed : Z)           (* kill_by_name *)
| WriteFile (path content : string).                (* Path.write_text *)

(** The whole of the program's state, with the part of the world it acts
    on. *)
Record State : Type := MkState {
  (* settings[miners] *)
  miners : list Miner;
  (* settings[ui][single_active] *)
  single_active : bool;
  (* settings[ui][auto_collapse_scripts_panel] *)
  auto_collapse_scripts_panel : bool;
  (* settings[xmrig] *)
  xmrig : XmrigSettings;
  (* the keys of self.miner_tabs, in insertion order *)
  miner_tabs : list string;
  (* self.procs *)
  procs : gmap string (option handle);
  (* self.proc_pids *)
  proc_pids : gmap string (option Z);
  (* self.proc_paused *)
  proc_paused : gmap string bool;
  (* self.proc_last_error *)
  proc_last_error : gmap string (option string);
  (* self.last_hashrate; None while the attribute does not exist *)
  last_hashrate : option (gmap string string);
  (* every QProcess created: its state, and the miner id its slots are
     bound to *)
  qprocs : gmap nat (QState * string);
  (* the next QProcess to be created *)
  next_handle : nat;
  (* armed single-shot escalation timers, each bound to a miner id *)
  timers : list string;
  (* the process table of the operating system *)
  sys_procs : list SysProc;
  (* files written by the program *)
  files : gmap string string;
  (* effects so far, oldest first *)
  trace : list Event
}.

Definition set_miners (v : list Miner) (st : State) : State :=
  MkState v (single_active st) (auto_collapse_scripts_panel st) (xmrig st)
    (miner_tabs st) (procs st) (proc_pids st) (proc_paused st)
    (proc_last_error st) (last_hashrate st) (qprocs st) (next_handle st)
    (timers st) (sys_procs st) (files st) (trace st) .

Definition set_single_active (v : bool) (st : State) : State :=
  MkState (miners st) v (auto_collapse_scripts_panel st) (xmrig st)
    (miner_tabs st) (procs st) (proc_pids st) (proc_paused st)
    (proc_last_error st) (last_hashrate st) (qprocs st) (next_handle st)
    (timers st) (sys_procs st) (files st) (trace st) .

Definition set_auto_collapse_scripts_panel (v : bool) (st : State) : State :=
  MkState (miners st) (single_active st) v (xmrig st) (miner_tabs st)
    (procs st) (proc_pids st) (proc_paused st) (proc_last_error st)
    (last_hashrate st) (qprocs st) (next_handle st) (timers st)
    (sys_procs st) (files st) (trace st) .


Definition set_miner_tabs (v : list string) (st : State) : State :=
  MkState (miners st) (single_active st) (auto_collapse_scripts_panel st)
    (xmrig st) v (procs st) (proc_pids st) (proc_paused st)
    (proc_last_error st) (last_hashrate st) (qprocs st) (next_handle st)
    (timers st) (sys_procs st) (files st) (trace st) .

Definition set_procs (v : gmap string (option handle)) (st : State) : State :=
  MkState (miners st) (single_active st) (auto_collapse_scripts_panel st)
    (xmrig st) (miner_tabs st) v (proc_pids st) (proc_paused st)
    (proc_last_error st) (last_hashrate st) (qprocs st) (next_handle st)
    (timers st) (sys_procs st) (files st) (trace st) .

Definition set_proc_pids (v : gmap string (option Z)) (st : State) : State :=
  MkState (miners st) (single_active st) (auto_collapse_scripts_panel st)
    (xmrig st) (miner_tabs st) (procs st) v (proc_paused st)
    (proc_last_error st) (last_hashrate st) (qprocs st) (next_handle st)
    (timers st) (sys_procs st) (files st) (trace st) .

Definition set_proc_paused (v : gmap string bool) (st : State) : State :=
  MkState (miners st) (single_active st) (auto_collapse_scripts_panel st)
    (xmrig st) (miner_tabs st) (procs st) (proc_pids st) v
    (proc_last_error st) (last_hashrate st) (qprocs st) (next_handle st)
    (timers st) (sys_procs st) (files st) (trace st) .

Definition set_proc_last_error (v : gmap string (option string)) (st : State) : State :=
  MkState (miners st) (single_active st) (auto_collapse_scripts_panel st)
    (xmrig st) (miner_tabs st) (procs st) (proc_pids st) (proc_paused st) v
    (last_hashrate st) (qprocs st) (next_handle st) (timers st)
    (sys_procs st) (files st) (trace st) .

Definition set_last_hashrate (v : option (gmap string string)) (st : State) : State :=
  MkState (miners st) (single_active st) (auto_collapse_scripts_panel st)
    (xmrig st) (miner_tabs st) (procs st) (proc_pids st) (proc_paused st)
    (proc_last_error st) v (qprocs st) (next_handle st) (timers st)
    (sys_procs st) (files st) (trace st) .

Definition set_qprocs (v : gmap nat (QState * string)) (st : State) : State :=
  MkState (miners st) (single_active st) (auto_collapse_scripts_panel st)
    (xmrig st) (miner_tabs st) (procs st) (proc_pids st) (proc_paused st)
    (proc_last_error st) (last_hashrate st) v (next_handle st) (timers st)
    (sys_procs st) (files st) (trace st) .

Definition set_next_handle (v : nat) (st : State) : State :=
  MkState (miners st) (single_active st) (auto_collapse_scripts_panel st)
    (xmrig st) (miner_tabs st) (procs st) (proc_pids st) (proc_paused st)
    (proc_last_error st) (last_hashrate st) (qprocs st) v (timers st)
    (sys_procs st) (files st) (trace st) .

Definition set_timers (v : list string) (st : State) : State :=
  MkState (miners st) (single_active st) (auto_collapse_scripts_panel st)
    (xmrig st) (miner_tabs st) (procs st) (proc_pids st) (proc_paused st)
    (proc_last_error st) (last_hashrate st) (qprocs st) (next_handle st) v
    (sys_procs st) (files st) (trace st) .

Definition set_sys_procs (v : list SysProc) (st : State) : State :=
  MkState (miners st) (single_active st) (auto_collapse_scripts_panel st)
    (xmrig st) (miner_tabs st) (procs st) (proc_pids st) (proc_paused st)
    (proc_last_error st) (last_hashrate st) (qprocs st) (next_handle st)
    (timers st) v (files st) (trace st) .

Definition set_files (v : gmap string string) (st : State) : State :=
  MkState (miners st) (single_active st) (auto_collapse_scripts_panel st)
    (xmrig st) (miner_tabs st) (procs st) (proc_pids st) (proc_paused st)
    (proc_last_error st) (last_hashrate st) (qprocs st) (next_handle st)
    (timers st) (sys_procs st) v (trace st) .

Definition set_trace (v : list Event) (st : State) : State :=
  MkState (miners st) (single_active st) (auto_collapse_scripts_panel st)
    (xmrig st) (miner_tabs st) (procs st) (proc_pids st) (proc_paused st)
    (proc_last_error st) (last_hashrate st) (qprocs st) (next_handle st)
    (timers st) (sys_procs st) (files st) v.

Definition emit (e : Event) (st : State) : State :=
  set_trace (trace st ++ [e]) st.

Definition Z_to_string (z : Z) : string :=
  NilZero.string_of_int (Z.to_int z).

(** [d.get(k)] on a dictionary whose values may be [None]. *)
Definition get {A : Type} (d : gmap string (option A)) (k : string) : option A :=
  match d !! k with Some (Some a) => Some a | _ => None end.

Definition qstate (st : State) (h : handle) : QState :=
  match qprocs st !! h with Some (q, _) => q | None => NotRunning end.

Definition set_qstate (h : handle) (q : QState) (st : State) : State :=
  match qprocs st !! h with
  | Some (_, owner) => set_qprocs (<[h := (q, owner)]> (qprocs st)) st
  | None => st
  end.

Definition not_running (q : QState) : bool :=
  match q with NotRunning => true | _ => false end.

Definition _find_miner (st : State) (miner_id : string) : option Miner :=
  List.find (fun m => String.eqb (strip (m_id m)) miner_id) (miners st).

(** [name = miner.get(name, miner_id)] with [miner = _find_miner(id) or {}] *)
Definition miner_name (st : State) (miner_id : string) : string :=
  match _find_miner st miner_id with
  | Some m => match m_name m with Some n => n | None => miner_id end
  | None => miner_id
  end.

Definition _log_global (msg : string) (st : State) : State := emit (LogGlobal msg) st.

Definition is_running (st : State) (miner_id : string) : bool :=
  match get (procs st) miner_id with
  | Some h => negb (not_running (qstate st h))
  | None => false
  end.

Definition is_paused (st : State) (miner_id : string) : bool :=
  match proc_paused st !! miner_id with Some b => b | None => false end.

Definition set_paused (miner_id : string) (b : bool) (st : State) : State :=
  set_proc_paused (<[miner_id := b]> (proc_paused st)) st.

(** [if not pid]: the pid is missing, [None] or zero. *)
Definition live_pid (st : State) (miner_id : string) : option Z :=
  match get (proc_pids st) miner_id with
  | Some pid => if (pid =? 0)%Z then None else Some pid
  | None => None
  end.

Definition when (b : bool) (f : State -> State) (st : State) : State :=
  if b then f st else st.

Definition pause_miner (env : Env) (miner_id : string) (silent : bool)
           (st : State) : State :=
  if negb (win32 env) then
    when (negb silent)
      (emit (MsgBox Information "Pause not supported"
               "Pause/Resume is only supported on Windows.")) st
  else if negb (is_running st miner_id) then
    when (negb silent)
      (_log_global (miner_id +:+ ": Pause requested but not running.")) st
  else if is_paused st miner_id then st
  else
    match live_pid st miner_id with
    | None =>
        when (negb silent)
          (emit (MsgBox Warning "Pause failed"
                   "Could not determine the miner process PID.")) st
    | Some pid =>
        let name := miner_name st miner_id in
        let st := emit (OsSuspend pid) st in
        let st :=
          match suspend_process env pid with
          | None =>
              when (negb silent)
                (_log_global (name +:+ ": Paused (process suspended)."))
                (set_paused miner_id true st)
          | Some e =>
              when (negb silent)
                (emit (MsgBox Critical "Pause failed"
                         ("Failed to pause " +:+ name +:+ "." +:+ nl +:+ nl +:+ e))) st
          end in
        emit ApplyCoinSettings (emit UpdateButtons st)
    end.

Definition resume_miner (env : Env) (miner_id : string) (silent : bool)
           (st : State) : State :=
  if negb (win32 env) then
    when (negb silent)
      (emit (MsgBox Information "Resume not supported"
               "Pause/Resume is only supported on Windows.")) st
  else if negb (is_running st miner_id) then
    emit UpdateButtons (set_paused miner_id false st)
  else if negb (is_paused st miner_id) then st
  else
    match live_pid st miner_id with
    | None => emit UpdateButtons (set_paused miner_id false st)
    | Some pid =>
        let name := miner_name st miner_id in
        let st := emit (OsResume pid) st in
        let st :=
          match resume_process env pid with
          | None =>
              when (negb silent) (_log_global (name +:+ ": Resumed."))
                (set_paused miner_id false st)
          | Some e =>
              when (negb silent)
                (emit (MsgBox Critical "Resume failed"
                         ("Failed to resume " +:+ name +:+ "." +:+ nl +:+ nl +:+ e))) st
          end in
        emit ApplyCoinSettings (emit UpdateButtons st)
    end.

Definition toggle_pause_miner (env : Env) (miner_id : string) (st : State) : State :=
  if is_paused st miner_id then resume_miner env miner_id false st
  else pause_miner env miner_id false st.

Definition _on_proc_error (miner_id err err_str : string) (st : State) : State :=
  let name := miner_name st miner_id in
  let msg := name +:+ ": process error " +:+ err +:+ " (" +:+ err_str +:+ ")" in
  let st := set_proc_last_error (<[miner_id := Some msg]> (proc_last_error st)) st in
  emit UpdateButtons (_log_global msg st).

Definition _on_proc_finished (miner_id : string) (exit_code : Z) (st : State) : State :=
  let name := miner_name st miner_id in
  let st := _log_global (name +:+ ": exited (code " +:+ Z_to_string exit_code +:+ ").") st in
  let err :=
    if negb (exit_code =? 0)%Z
    then Some (name +:+ ": exited with code " +:+ Z_to_string exit_code)
    else None in
  let st := set_proc_last_error (<[miner_id := err]> (proc_last_error st)) st in
  let st := set_procs (<[miner_id := None]> (procs st)) st in
  let st := set_proc_pids (<[miner_id := None]> (proc_pids st)) st in
  let st := set_paused miner_id false st in
  emit UpdateButtons st.

(** A signal of process [h] reaches the slots connected in
    [_start_process], which are bound to the miner id [h] was created
    for. A finished process is in state [NotRunning]. *)
Definition deliver (h : handle) (sig : QtSignal) (st : State) : State :=
  match qprocs st !! h with
  | None => st
  | Some (_, owner) =>
      match sig with
      | SigError err err_str => _on_proc_error owner err err_str st
      | SigFinished code => _on_proc_finished owner code (set_qstate h NotRunning st)
      end
  end.

Definition deliver_all (h : handle) (sigs : list QtSignal) (st : State) : State :=
  fold_left (fun s sig => deliver h sig s) sigs st.

Definition stop_miner (env : Env) (miner_id : string) (st : State) : State :=
  let name := miner_name st miner_id in
  match get (procs st) miner_id with
  | Some h =>
      if not_running (qstate st h)
      then _log_global (name +:+ ": Stop requested but not running.") st
      else
        let st := when (is_paused st miner_id) (resume_miner env miner_id true) st in
        let st := _log_global (name +:+ ": Stop requested (graceful terminate).") st in
        let st := emit (ProcTerminate h) st in
        let st := emit (TimerStart miner_id 5000) (set_timers (timers st ++ [miner_id]) st) in
        emit UpdateButtons st
  | None => _log_global (name +:+ ": Stop requested but not running.") st
  end.

(** The [for kname in kills] loop of [kill_miner]. *)
Fixpoint kill_sweep (kills : list string) (killed_total : Z) (st : State)
  : Z * State :=
  match kills with
  | [] => (killed_total, st)
  | kname :: kills' =>
      let '(n, tbl) := kill_by_name (strip kname) (sys_procs st) in
      kill_sweep kills' (killed_total + n)%Z
                 (emit (KillByName (strip kname) n) (set_sys_procs tbl st))
  end.

Definition kill_miner (env : Env) (miner_id : string) (st : State) : State :=
  let kills :=
    match _find_miner st miner_id with Some m => m_kill_names m | None => [] end in
  let name := miner_name st miner_id in
  let st := when (is_paused st miner_id) (resume_miner env miner_id true) st in
  let st :=
    match get (procs st) miner_id with
    | Some h =>
        if not_running (qstate st h) then st
        else
          let st := _log_global (name +:+ ": Force kill requested.") st in
          let st := emit (WaitForFinished h 2000) (emit (ProcKill h) st) in
          deliver_all h (wait_finished env h) st
    | None => st
    end in
  let st :=
    match live_pid st miner_id with
    | Some pid =>
        emit (KillTree pid)
             (set_sys_procs (kill_process_tree pid true (sys_procs st)) st)
    | None => st
    end in
  let '(killed_total, st) := kill_sweep kills 0%Z st in
  let st :=
    when (negb (killed_total =? 0)%Z)
      (_log_global (name +:+ ": kill-by-name fallback killed "
                      +:+ Z_to_string killed_total +:+ " process(es).")) st in
  let st := set_procs (<[miner_id := None]> (procs st)) st in
  let st := set_proc_pids (<[miner_id := None]> (proc_pids st)) st in
  let st := set_paused miner_id false st in
  let st := set_paused miner_id false st in
  emit UpdateButtons st.

Definition _escalate_kill_if_running (env : Env) (miner_id : string) (st : State)
  : State :=
  if is_running st miner_id then
    let name := miner_name st miner_id in
    kill_miner env miner_id
      (_log_global (name +:+ ": Did not stop gracefully; escalating to kill.") st)
  else st.

(** *** Generated configuration *)

Definition _xmrig_generated_config_path (env : Env) (xmrig_exe_path : string) : Path :=
  MkPath (path_parent_join env xmrig_exe_path "config.generated.json")
         "config.generated.json".

(** The document [cfg] of [_write_xmrig_config]. *)
Definition xmrig_document (pool user password : string) : json :=
  JObj [ ("autosave", JBool true);
         ("cpu", JBool true);
         ("opencl", JBool false);
         ("cuda", JBool false);
         ("pools",
           JList [ JObj [ ("url", JStr pool);
                          ("user", JStr user);
                          ("pass", JStr password);
                          ("keepalive", JBool true);
                          ("tls", JBool false) ] ]) ].

Definition or_default (s dflt : string) : string :=
  match s with EmptyString => dflt | _ => s end.

Definition _write_xmrig_config (env : Env) (xmrig_exe_path : string) (st : State)
  : option Path * State :=
  let xm := xmrig st in
  if negb (xm_auto_config xm) then (None, st)
  else
    let pool := strip (xm_pool xm) in
    let wallet := strip (xm_wallet xm) in
    let worker := strip (xm_worker xm) in
    let password := or_default (strip (or_default (xm_pass xm) "x")) "x" in
    if negb (nonempty pool) || negb (nonempty wallet) then
      (None,
       emit (MsgBox Warning "XMRig settings missing"
               ("XMRig auto-config is enabled." +:+ nl
                +:+ "Please set Pool and Wallet/User in Settings -> XMRig, or disable auto-config."))
            (* the source prints an arrow character, U+2192, for -> *)
            st)
    else
      let user := if negb (nonempty worker) then wallet else wallet +:+ "." +:+ worker in
      let cfg := xmrig_document pool user password in
      let out_path := _xmrig_generated_config_path env xmrig_exe_path in
      let text := dumps 0 cfg in
      (Some out_path,
       emit (WriteFile (p_str out_path) text)
            (set_files (<[p_str out_path := text]> (files st)) st)).

(** *** Script selection for BAT miners *)

Definition _bat_folder_and_active (miner : Miner) : string * list string :=
  (strip (or_default (m_scripts_dir miner) (m_path miner)),
   filter (fun x => nonempty x = true) (map strip (m_active_scripts miner))).

(** [available[name]] for the dictionary built from the listing: the last
    entry with that name. *)
Definition available (bats : list (string * string)) (name : string) : option string :=
  match List.find (fun b => String.eqb (fst b) name) (rev bats) with
  | Some b => Some (snd b)
  | None => None
  end.

Fixpoint update_first (mid : string) (f : Miner -> Miner) (ms : list Miner) : list Miner :=
  match ms with
  | [] => []
  | m :: ms' =>
      if String.eqb (strip (m_id m)) mid then f m :: ms'
      else m :: update_first mid f ms'
  end.

(** [_persist_active(names)]: the miner dictionary found by [_find_miner]
    is updated in place and the settings are saved. *)
Definition _persist_active (miner_id folder : string) (names : list string)
           (st : State) : State :=
  let f m := MkMiner (m_id m) (m_name m) (m_type m) folder (m_args m) (m_workdir m)
                     (m_kill_names m) (m_enabled m) folder names in
  emit SaveSettings (set_miners (update_first miner_id f (miners st)) st).

Definition _choose_bat_script_path (env : Env) (miner_id : string) (st : State)
  : option string * State :=
  match _find_miner st miner_id with
  | None => (None, st)
  | Some miner =>
      let '(folder, active) := _bat_folder_and_active miner in
      if negb (nonempty folder) then (None, st)
      else
        let bats := list_bats env folder in
        match bats with
        | [] => (None, st)
        | first :: more =>
            let name := match m_name miner with Some n => n | None => miner_id end in
            let active :=
              filter (fun a => is_Some (available bats a)) active in
            match active with
            | [a] => (available bats a, st)
            | _ :: _ :: _ =>
                match choose_item env
                        ("Multiple active scripts are checked for " +:+ name +:+ "."
                         +:+ nl +:+ "Choose which one to run:") active with
                | Some choice => (available bats choice, st)
                | None => (None, st)
                end
            | [] =>
                match more with
                | [] => (Some (snd first), _persist_active miner_id folder [fst first] st)
                | _ =>
                    match choose_item env
                            ("No active script is selected for " +:+ name +:+ "."
                             +:+ nl +:+ "Choose a script to run:") (map fst bats) with
                    | Some choice =>
                        match available bats choice with
                        | Some p => (Some p, _persist_active miner_id folder [choice] st)
                        | None => (None, st)
                        end
                    | None => (None, st)
                    end
                end
            end
        end
  end.

(** *** Start *)

(** The ways [start_miner] ends. *)
Inductive StartOutcome : Type :=
| MissingMiner            (* critical box: Miner not found *)
| AlreadyRunning          (* warning box: is already running *)
| NotConfigured           (* warning box: Missing path *)
| NoScriptSelected        (* warning box: No script selected *)
| NotFound                (* critical box: BAT or EXE not found *)
| NoTab                   (* the miner has no tab: nothing is started *)
| StartFailed             (* critical box: Start failed *)
| Started
| StartRaised (e : exn).  (* an exception leaves start_miner *)

Definition args_text (args : list string) : string :=
  match args with [] => "(none)" | _ => join " " args end.

Definition _start_process (env : Env) (miner_id exe : string) (args : list string)
           (workdir : string) (st : State) : StartOutcome * State :=
  if negb (existsb (String.eqb miner_id) (miner_tabs st)) then (NoTab, st)
  else
    let name := miner_name st miner_id in
    let wdir := or_default workdir (path_parent_resolved env exe) in
    let st := _log_global ("Starting " +:+ name +:+ ": " +:+ exe) st in
    let st := _log_global (name +:+ " args: " +:+ args_text args) st in
    let st := _log_global (name +:+ " workdir: " +:+ wdir) st in
    let st := emit (TabLog miner_id ("--- Starting " +:+ name +:+ " ---")) st in
    let st := emit (TabLog miner_id ("Exe: " +:+ exe)) st in
    let st := emit (TabLog miner_id ("Args: " +:+ args_text args)) st in
    let st := emit (TabLog miner_id ("Workdir: " +:+ wdir)) st in
    let st := set_proc_last_error (<[miner_id := None]> (proc_last_error st)) st in
    let h := next_handle st in
    let st := set_next_handle (S h) st in
    let st := set_qprocs (<[h := (NotRunning, miner_id)]> (qprocs st)) st in
    let st := emit (ProcStart h exe args wdir) st in
    match launch env exe args wdir with
    | LaunchFailed err signals =>
        let st := deliver_all h signals st in
        let st := _log_global (name +:+ ": Failed to start. QProcess error: " +:+ err) st in
        let st := emit (TabLog miner_id ("Failed to start. QProcess error: " +:+ err)) st in
        (StartFailed,
         emit (MsgBox Critical "Start failed"
                 (name +:+ " did not start." +:+ nl +:+ nl +:+ err)) st)
    | Launched pid =>
        let st := set_qstate h Running st in
        let st := set_procs (<[miner_id := Some h]> (procs st)) st in
        let st := set_proc_pids (<[miner_id := pid]> (proc_pids st)) st in
        let st := set_paused miner_id false st in
        let st := emit UpdateButtons st in
        (Started, when (auto_collapse_scripts_panel st) (emit ScriptsCollapse) st)
    end.

(** The [for mid in list(self.miner_tabs.keys())] loop of [start_miner]. *)
Definition stop_others (env : Env) (miner_id : string) (st : State) : State :=
  fold_left
    (fun s mid =>
       if negb (String.eqb mid miner_id) && is_running s mid
       then stop_miner env mid s else s)
    (miner_tabs st) st.

Definition start_miner (env : Env) (miner_id : string) (st : State)
  : StartOutcome * State :=
  match _find_miner st miner_id with
  | None =>
      (MissingMiner,
       emit (MsgBox Critical "Missing miner" ("Miner not found: " +:+ miner_id)) st)
  | Some miner =>
      let name := match m_name miner with Some n => n | None => miner_id end in
      if is_running st miner_id then
        (AlreadyRunning,
         emit (MsgBox Warning "Running" (name +:+ " is already running.")) st)
      else
        let st := when (single_active st) (stop_others env miner_id) st in
        let mtype := strip (upper (or_default (m_type miner) "EXE")) in
        let path := strip (m_path miner) in
        let args_str := strip (m_args miner) in
        let workdir := strip (m_workdir miner) in
        if negb (nonempty path) then
          (NotConfigured,
           emit (MsgBox Warning "Missing path"
                   ("Set Path for " +:+ name +:+ " in Settings.")) st)
        else if String.eqb mtype "BAT" then
          match _choose_bat_script_path env miner_id st with
          | (None, st) =>
              (NoScriptSelected,
               emit (MsgBox Warning "No script selected"
                       ("Select a scripts folder and tick at least one .bat for "
                        +:+ name +:+ nl +:+ "using the Scripts panel.")) st)
          | (Some bat_path, st) =>
              if negb (nonempty bat_path) then
                (NoScriptSelected,
                 emit (MsgBox Warning "No script selected"
                         ("Select a scripts folder and tick at least one .bat for "
                          +:+ name +:+ nl +:+ "using the Scripts panel.")) st)
              else if negb (path_exists env bat_path) then
                (NotFound,
                 emit (MsgBox Critical "BAT not found"
                         ("BAT file not found:" +:+ nl +:+ bat_path)) st)
              else
                let exe :=
                  match environ env "ComSpec" with
                  | Some comspec =>
                      if nonempty comspec && path_exists env comspec then comspec
                      else path_join env
                             [match environ env "WINDIR" with
                              | Some w => w | None => "C:\Windows" end;
                              "System32"; "cmd.exe"]
                  | None =>
                      path_join env
                        [match environ env "WINDIR" with
                         | Some w => w | None => "C:\Windows" end;
                         "System32"; "cmd.exe"]
                  end in
                let args := ["/c"; bat_path] in
                let forced_workdir :=
                  or_default workdir (path_parent_resolved env bat_path) in
                let forced_workdir :=
                  if nonempty forced_workdir
                  then expandvars env forced_workdir else forced_workdir in
                let '(out, st) := _start_process env miner_id exe args forced_workdir st in
                (out, emit ApplyCoinSettings st)
          end
        else
          let exe :=
            if path_is_absolute env path then path_str env path
            else path_resolve_in_app env path in
          if negb (path_exists env exe) then
            (NotFound,
             emit (MsgBox Critical "EXE not found"
                     ("Executable not found:" +:+ nl +:+ exe)) st)
          else
            let '(xmrig_cfg_path, args_str, st) :=
              if String.eqb (lower miner_id) "xmrig" then
                let '(cfg, st) := _write_xmrig_config env exe st in
                let extra := strip (xm_extra (xmrig st)) in
                (cfg,
                 if nonempty extra then strip (args_str +:+ " " +:+ extra) else args_str,
                 st)
              else (None, args_str, st) in
            let expanded_args_str := expand_placeholders env args_str xmrig_cfg_path in
            match split_args expanded_args_str with
            | None => (StartRaised (ValueError "No closing quotation"), st)
            | Some args =>
                let forced_workdir :=
                  or_default workdir (path_parent_resolved env exe) in
                let forced_workdir :=
                  if nonempty forced_workdir
                  then expandvars env forced_workdir else forced_workdir in
                let '(out, st) := _start_process env miner_id exe args forced_workdir st in
                (out, emit ApplyCoinSettings st)
            end
  end.

(** *** Output *)

Definition _maybe_capture_hashrate (miner_id line : string) (st : State)
  : result State :=
  let mid := lower miner_id in
  if negb (String.eqb mid "xmrig") then Ok st
  else
    let s := strip_ansi line in
    match hashrate_match s with
    | None => Ok st
    | Some (val, unit) =>
        (* the setdefault acts on the attribute, or on a throw-away
           dictionary when the attribute does not exist; the assignment
           that follows reads the attribute itself *)
        match last_hashrate st with
        | None =>
            Raise (AttributeError
                     "'MinerGUI' object has no attribute 'last_hashrate'")
        | Some d =>
            let d := match d !! "xmrig" with
                     | Some _ => d
                     | None => <["xmrig" := ""]> d
                     end in
            Ok (set_last_hashrate (Some (<["xmrig" := val +:+ " " +:+ unit]> d)) st)
        end
    end.

Definition is_linebreak (c : ascii) : bool :=
  between 10 13 c || between 28 30 c || between 133 133 c.

(** [text.splitlines()] *)
Fixpoint splitlines_go (cur : string) (s : string) : list string :=
  match s with
  | EmptyString => if nonempty cur then [cur] else []
  | String c s' =>
      if is_linebreak c then
        cur ::
          match s' with
          | String c2 s'' =>
              if between 13 13 c && between 10 10 c2
              then splitlines_go EmptyString s''
              else splitlines_go EmptyString s'
          | EmptyString => []
          end
      else splitlines_go (snoc cur c) s'
  end.

Definition splitlines (s : string) : list string := splitlines_go EmptyString s.

(** The body of the [for line in text.splitlines()] loop. *)
Definition process_line (miner_id line : string) (st : State) : State :=
  let st := match _maybe_capture_hashrate miner_id line st with
            | Ok st' => st'
            | Raise _ => st
            end in
  let st := emit (TabHtml miner_id (line_to_html_with_rules line miner_id)) st in
  _log_global ("[" +:+ miner_id +:+ "] " +:+ strip_ansi line) st.

Definition _on_ready_read (env : Env) (miner_id : string) (h : handle) (st : State)
  : result State :=
  match Decode.decode_process_bytes (codecs env) (win32 env) (read_all env h) with
  | Raise e => Raise e
  | Ok text =>
      if negb (nonempty text) then Ok st
      else Ok (fold_left (fun s line => process_line miner_id line s)
                         (splitlines text) st)
  end.

(** *** The event loop *)

(** What the event loop dispatches: a user request, a timer, a signal. *)
Inductive Input : Type :=
| DoStart (miner_id : string)
| DoStop (miner_id : string)
| DoKill (miner_id : string)
| DoTogglePause (miner_id : string)
| TimerFires                                  (* the oldest armed timer times out *)
| Signal (h : handle) (sig : QtSignal)
| ReadyRead (h : handle).

Definition step (env : Env) (i : Input) (st : State) : State :=
  match i with
  | DoStart mid => snd (start_miner env mid st)
  | DoStop mid => stop_miner env mid st
  | DoKill mid => kill_miner env mid st
  | DoTogglePause mid => toggle_pause_miner env mid st
  | TimerFires =>
      match timers st with
      | [] => st
      | mid :: rest => _escalate_kill_if_running env mid (set_timers rest st)
      end
  | Signal h sig => deliver h sig st
  | ReadyRead h =>
      match qprocs st !! h with
      | Some (_, owner) =>
          match _on_ready_read env owner h st with Ok st' => st' | Raise _ => st end
      | None => st
      end
  end.

Definition run (env : Env) (inputs : list Input) (st : State) : State :=
  fold_left (fun s i => step env i s) inputs st.

End Supervisor.

(** ** The specification's vocabulary *)

Module Spec.
Import PyStr Re Output Resolve Sys Json Supervisor.

(** *** Keyword classification, in the words of the specification *)

Definition success_color : string := "#44ff44".
Definition info_color : string := "#ff44ff".
Definition error_color : string := "#ff4444".
Definition warning_color : string := "#ffff44".

(** [s] starts with [kw], letters compared without regard to case. *)
Fixpoint istarts (kw s : string) : bool :=
  match kw with
  | EmptyString => true
  | String k kw' =>
      match s with
      | String c s' => Ascii.eqb (lower_char c) (lower_char k) && istarts kw' s'
      | EmptyString => false
      end
  end.

Fixpoint drop (n : nat) (s : string) : string :=
  match n with
  | O => s
  | S k => match s with String _ s' => drop k s' | EmptyString => EmptyString end
  end.

(** [kw] stands at the head of [s] as a whole word: no word character
    just before it or just after it. *)
Definition whole_word_at (prev : option ascii) (kw s : string) : bool :=
  negb (word_opt prev) && istarts kw s
  && negb (word_opt (next_char (drop (String.length kw) s))).

Fixpoint occurs_from (prev : option ascii) (kw s : string) : bool :=
  whole_word_at prev kw s ||
  match s with
  | EmptyString => false
  | String c s' => occurs_from (Some c) kw s'
  end.

(** The line contains the keyword as a whole word, in any case. *)
Definition has_word (kw line : string) : bool := occurs_from None kw line.

(** The ordered rule list of the specification. *)
Definition keyword_rules : list (list string * string) :=
  [ (["accepted"], success_color);
    (["new job"], info_color);
    (["rejected"], error_color);
    (["error"; "failed"; "exception"], error_color);
    (["difficulty"; "hashrate"; "share"], warning_color) ].

Fixpoint first_keyword_rule (rules : list (list string * string)) (line : string)
  : option string :=
  match rules with
  | [] => None
  | (kws, color) :: rules' =>
      if existsb (fun kw => has_word kw line) kws then Some color
      else first_keyword_rule rules' line
  end.

(** Which colour a line gets: only the designated miner has rules. *)
Definition keyword_color (miner_id line : string) : option string :=
  if String.eqb (lower miner_id) "xmrig"
  then first_keyword_rule keyword_rules line else None.

(** *** The strict executable-name shape, in the words of the specification *)


Fixpoint all_chars (p : ascii -> bool) (s : string) : bool :=
  match s with
  | EmptyString => true
  | String c s' => p c && all_chars p s'
  end.




(** *** Process records *)

(** The record of one identity is the same in both states. *)
Definition same_record (miner_id : string) (st st' : State) : Prop :=
  procs st' !! miner_id = procs st !! miner_id
  /\ proc_pids st' !! miner_id = proc_pids st !! miner_id
  /\ proc_paused st' !! miner_id = proc_paused st !! miner_id
  /\ proc_last_error st' !! miner_id = proc_last_error st !! miner_id.


(** Nothing but the event trace differs. *)
Definition same_state (st st' : State) : Prop :=
  set_trace (trace st) st' = st.

(** The record of an identity is cleared: no handle, no pid, not paused. *)
Definition cleared (miner_id : string) (st : State) : Prop :=
  procs st !! miner_id = Some None
  /\ proc_pids st !! miner_id = Some None
  /\ proc_paused st !! miner_id = Some false.

(** How often [proc.kill()] was called. *)
Definition is_proc_kill (e : Event) : bool :=
  match e with ProcKill _ => true | _ => false end.

Definition proc_kills (tr : list Event) : nat :=
  length (List.filter is_proc_kill tr).

(** The names [kill_by_name] was called with, in order. *)
Definition swept_by (e : Event) : list string :=
  match e with KillByName name _ => [name] | _ => [] end.

Definition swept (tr : list Event) : list string := flat_map swept_by tr.


(** *** Generated document *)



(** *** The kill-by-name sweep *)

(** [kill_by_name] over every alias, on the process table alone. *)
Fixpoint sweep_table (kills : list string) (tbl : list SysProc) : list SysProc :=
  match kills with
  | [] => tbl
  | k :: kills' => sweep_table kills' (snd (kill_by_name (strip k) tbl))
  end.

(** Process [p] carries the executable name [alias], in any case, and
    [alias] has the strict shape. *)
Definition targeted (alias : string) (p : SysProc) : bool :=
  matched (re_match true SAFE_EXE_NAME_RE (strip alias))
  && String.eqb (lower (match sp_name p with Some n => n | None => "" end))
                (lower (strip alias)).

(** *** Placeholders *)




End Spec.

(** ** Sample configurations *)

Module Sample.
Import PyStr Resolve Sys Supervisor.

(** A stand-in for [os.path.expandvars] that knows one variable. *)
Definition sample_expandvars (s : string) : string :=
  replace "%USERPROFILE%" "C:\Users\miner" s.

Definition ascii_of_byte_list (b : list byte) : string :=
  string_of_list_ascii (map Ascii.ascii_of_byte b).

Definition all_ascii (b : list byte) : bool :=
  forallb (fun x => (Byte.to_N x <? 128)%N) b.

(** Codecs of a machine whose legacy code page is single-byte. *)
Definition sample_codecs : Decode.Codecs string :=
  {| Decode.empty_text := "";
     Decode.utf8_strict := fun b =>
       if all_ascii b then Ok (ascii_of_byte_list b) else Raise UnicodeDecodeError;
     Decode.mbcs_replace := fun b => Ok (ascii_of_byte_list b);
     Decode.utf8_replace := fun b =>
       Ok (ascii_of_byte_list
             (map (fun x => if (Byte.to_N x <? 128)%N then x else "?"%byte) b)) |}.

Definition sample_env (on_windows : bool) : Env :=
  {| win32 := on_windows;
     app_dir := "C:\MinerGUI";
     now_date := "2024-05-01";
     now_time := "12:30:00";
     now_datetime := "2024-05-01_12-30-00";
     expandvars := sample_expandvars;
     environ := fun k => if String.eqb k "WINDIR" then Some "C:\Windows" else None;
     path_exists := fun _ => true;
     path_is_absolute := fun p => String.prefix "C:\" p;
     path_resolve_in_app := fun p => "C:\MinerGUI\" +:+ p;
     path_str := fun p => p;
     path_parent_resolved := fun _ => "C:\MinerGUI\miners\xmrig";
     path_parent_join := fun _ name => "C:\MinerGUI\miners\xmrig\" +:+ name;
     path_join := join "\";
     list_bats := fun _ => [];
     choose_item := fun _ _ => None;
     suspend_process := fun _ => None;
     resume_process := fun _ => None;
     launch := fun _ _ _ => Launched (Some 4242%Z);
     wait_finished := fun _ => [SigError "Crashed" "Process crashed"; SigFinished 62097%Z];
     read_all := fun _ => [];
     codecs := sample_codecs |}.

(** The miners of [_default_settings]. *)
Definition default_miners : list Miner :=
  [ MkMiner "xmrig" (Some "XMRig") "EXE" "C:\MinerGUI\miners\xmrig\xmrig.exe"
            "--config {XMRIG_CONFIG_NAME}" "" ["xmrig.exe"] true "" [];
    MkMiner "wildrig" (Some "WildRig") "BAT" "" "" "" ["wildrig.exe"] true "" [];
    MkMiner "rigel" (Some "Rigel") "BAT" "" "" "" ["rigel.exe"] true "" [] ].

Definition default_xmrig : XmrigSettings := MkXmrig true "" "" "" "x" "".

(** The state after [MinerGUI.__init__] with the default settings. *)
Definition initial (exclusive : bool) (tbl : list SysProc) : State :=
  {| miners := default_miners;
     single_active := exclusive;
     auto_collapse_scripts_panel := true;
     xmrig := default_xmrig;
     miner_tabs := ["xmrig"; "wildrig"; "rigel"];
     procs := <["xmrig" := None]> (<["wildrig" := None]> (<["rigel" := None]> ∅));
     proc_pids := <["xmrig" := None]> (<["wildrig" := None]> (<["rigel" := None]> ∅));
     proc_paused := <["xmrig" := false]> (<["wildrig" := false]> (<["rigel" := false]> ∅));
     proc_last_error :=
       <["xmrig" := None]> (<["wildrig" := None]> (<["rigel" := None]> ∅));
     last_hashrate := None;
     qprocs := ∅;
     next_handle := 0;
     timers := [];
     sys_procs := tbl;
     files := ∅;
     trace := [] |}.

(** XMRig is running as process 4242 (with a child) and is paused. *)
Definition xmrig_paused (exclusive : bool) : State :=
  let st := initial exclusive
              [ MkSysProc 4242 1 (Some "xmrig.exe") false;
                MkSysProc 4243 4242 (Some "conhost.exe") false;
                MkSysProc 77 1 (Some "XMRig.exe") false;
                MkSysProc 78 1 (Some "explorer.exe") false ] in
  let st := set_qprocs (<[0 := (Running, "xmrig")]> (qprocs st)) st in
  let st := set_next_handle 1 st in
  let st := set_procs (<["xmrig" := Some 0]> (procs st)) st in
  let st := set_proc_pids (<["xmrig" := Some 4242%Z]> (proc_pids st)) st in
  set_proc_paused (<["xmrig" := true]> (proc_paused st)) st.

End Sample.


(** ** Notions used in the statements and proofs *)

Module Support.
Import PyStr Re Output Resolve Sys Json Supervisor Spec.

Definition speed_line : string := "speed 10s/60s/15m 1234.5 5678.9 n/a H/s".

(** The user field the writer computes. *)
Definition pool_user (wallet worker : string) : string :=
  match strip worker with
  | EmptyString => strip wallet
  | w => strip wallet +:+ "." +:+ w
  end.

(** The password field the writer computes. *)
Definition pool_pass (pass : string) : string :=
  or_default (strip (or_default pass "x")) "x".


(** [st'] differs from [st] at most in the pause flag of [miner_id], in
    the timers and in a trace extended without a [proc.kill()]. *)
Record quiet (miner_id : string) (st st' : State) : Prop := MkQuiet {
  q_procs : procs st' = procs st;
  q_pids : proc_pids st' = proc_pids st;
  q_err : proc_last_error st' = proc_last_error st;
  q_qprocs : qprocs st' = qprocs st;
  q_next : next_handle st' = next_handle st;
  q_miners : miners st' = miners st;
  q_tabs : miner_tabs st' = miner_tabs st;
  q_single : single_active st' = single_active st;
  q_sys : sys_procs st' = sys_procs st;
  q_files : files st' = files st;
  q_hash : last_hashrate st' = last_hashrate st;
  q_paused : forall k, k <> miner_id -> proc_paused st' !! k = proc_paused st !! k;
  q_kills : proc_kills (trace st') = proc_kills (trace st);
  q_swept : swept (trace st') = swept (trace st)
}.

Definition starts_ok (t : string) : Prop :=
  match t with
  | EmptyString => True
  | String c _ => isspace c = false
  end.

Definition proc_name (p : SysProc) : string :=
  match sp_name p with Some n => n | None => EmptyString end.

(** The loop kills [p]: the name is the wanted one and the kill succeeds. *)
Definition hit (exe_name_l : string) (p : SysProc) : bool :=
  String.eqb (lower (proc_name p)) exe_name_l && negb (sp_protected p).


(** [st'] keeps the timers and the miners of [st] and adds no
    [proc.kill()] to the trace. *)
Record gentle (st st' : State) : Prop := MkGentle {
  g_timers : timers st' = timers st;
  g_miners : miners st' = miners st;
  g_kills : proc_kills (trace st') = proc_kills (trace st)
}.

(** The part of [kill_miner] up to and including the kill of the tracked
    process. *)
Definition kill_head (env : Env) (miner_id : string) (st : State) : State :=
  let name := miner_name st miner_id in
  let st := when (is_paused st miner_id) (resume_miner env miner_id true) st in
  match get (procs st) miner_id with
  | Some h =>
      if not_running (qstate st h) then st
      else
        let st := _log_global (name +:+ ": Force kill requested.") st in
        let st := emit (WaitForFinished h 2000) (emit (ProcKill h) st) in
        deliver_all h (wait_finished env h) st
  | None => st
  end.

(** The rest of [kill_miner]: process tree, sweep by name, clearing. *)
Definition kill_tail (miner_id name : string) (kills : list string) (st : State)
  : State :=
  let st :=
    match live_pid st miner_id with
    | Some pid =>
        emit (KillTree pid)
             (set_sys_procs (kill_process_tree pid true (sys_procs st)) st)
    | None => st
    end in
  let '(killed_total, st) := kill_sweep kills 0%Z st in
  let st :=
    when (negb (killed_total =? 0)%Z)
      (_log_global (name +:+ ": kill-by-name fallback killed "
                      +:+ Z_to_string killed_total +:+ " process(es).")) st in
  let st := set_procs (<[miner_id := None]> (procs st)) st in
  let st := set_proc_pids (<[miner_id := None]> (proc_pids st)) st in
  let st := set_paused miner_id false st in
  let st := set_paused miner_id false st in
  emit UpdateButtons st.

Definition kill_names_of (st : State) (miner_id : string) : list string :=
  match _find_miner st miner_id with Some m => m_kill_names m | None => [] end.

(** Processes named like the alias that the supervisor never started. *)
Definition strangers : list SysProc :=
  [ MkSysProc 501 1 (Some "XMRIG.EXE") false;
    MkSysProc 502 1 (Some "xmrig.exe") true;
    MkSysProc 503 1 (Some "notepad.exe") false ].












End Support.

(** * Properties *)

(** ** Records and traces *)

Module Frame.
Import PyStr Supervisor Spec Support.

Lemma state_eta (st : State) :
  MkState (miners st) (single_active st) (auto_collapse_scripts_panel st)
          (xmrig st) (miner_tabs st) (procs st) (proc_pids st) (proc_paused st)
          (proc_last_error st) (last_hashrate st) (qprocs st) (next_handle st)
          (timers st) (sys_procs st) (files st) (trace st) = st.
Proof. destruct st; reflexivity. Qed.

Lemma same_state_emit (e : Event) (st : State) : same_state st (emit e st).
Proof. unfold same_state, emit, set_trace; simpl. apply state_eta. Qed.

Lemma same_record_refl (miner_id : string) (st : State) : same_record miner_id st st.
Proof. repeat split. Qed.

Lemma same_record_emit (miner_id : string) (e : Event) (st : State) :
  same_record miner_id st (emit e st).
Proof. repeat split. Qed.

Lemma same_record_trans (miner_id : string) (a b c : State) :
  same_record miner_id a b -> same_record miner_id b c -> same_record miner_id a c.
Proof.
  intros (H1 & H2 & H3 & H4) (K1 & K2 & K3 & K4).
  repeat split; congruence.
Qed.

Lemma is_running_emit (e : Event) (st : State) (miner_id : string) :
  is_running (emit e st) miner_id = is_running st miner_id.
Proof. reflexivity. Qed.

End Frame.

(** ** Stop on an identity that is not running *)

Module StopIdle.
Import PyStr Supervisor Spec Frame Support.

Lemma stop_not_running (env : Env) (st : State) (miner_id : string) :
  is_running st miner_id = false ->
  stop_miner env miner_id st
  = _log_global (miner_name st miner_id +:+ ": Stop requested but not running.") st.
Proof.
  unfold stop_miner, is_running.
  destruct (get (procs st) miner_id) as [h|]; [|reflexivity].
  destruct (not_running (qstate st h)); [reflexivity|discriminate].
Qed.

(** C8. Stop on an identity whose process is not running (no tracked
    handle, or a handle in the not-running state) only writes one line
    to the global log: the handle, pid, pause flag and last error keep
    their values, nothing else of the state changes, and a second Stop
    does the same. [stop_miner] is a total function without an
    exceptional outcome. *)
Theorem C8_stop_when_not_running_changes_nothing
        (env : Env) (st : State) (miner_id : string) :
  is_running st miner_id = false ->
  let st' := stop_miner env miner_id st in
  same_record miner_id st st'
  /\ same_state st st'
  /\ trace st' = trace st ++
       [LogGlobal (miner_name st miner_id +:+ ": Stop requested but not running.")]
  /\ is_running st' miner_id = false
  /\ same_state st (stop_miner env miner_id st').
Proof.
  intros Hrun st'. subst st'.
  rewrite (stop_not_running env st miner_id Hrun).
  split; [apply same_record_emit|].
  split; [apply same_state_emit|].
  split; [reflexivity|].
  split; [exact Hrun|].
  rewrite stop_not_running by exact Hrun.
  unfold same_state, _log_global, emit, set_trace; simpl. apply state_eta.
Qed.

Lemma C8_witness :
  is_running (Sample.initial false []) "rigel" = false
  /\ let st' := stop_miner (Sample.sample_env true) "rigel" (Sample.initial false []) in
     same_record "rigel" (Sample.initial false []) st'
     /\ same_state (Sample.initial false []) st'
     /\ trace st' = trace (Sample.initial false []) ++
          [LogGlobal (miner_name (Sample.initial false []) "rigel"
                      +:+ ": Stop requested but not running.")]
     /\ is_running st' "rigel" = false
     /\ same_state (Sample.initial false []) (stop_miner (Sample.sample_env true) "rigel" st').
Proof.
  split; [vm_compute; reflexivity|].
  apply (C8_stop_when_not_running_changes_nothing
           (Sample.sample_env true) (Sample.initial false []) "rigel").
  vm_compute; reflexivity.
Defined.

End StopIdle.

(** ** Hashrate capture *)

Module Hashrate.
Import PyStr Re Output Supervisor Support.

Lemma speed_line_plain : strip_ansi speed_line = speed_line.
Proof. vm_compute; reflexivity. Qed.

Lemma speed_line_no_match : hashrate_match speed_line = None.
Proof. vm_compute; reflexivity. Qed.

(** The speed pattern does read a line that carries one value only. *)
Lemma single_value_line_matches :
  hashrate_match "speed 10s/60s/15m 1234.5 H/s" = Some ("1234.5", "H/s").
Proof. vm_compute; reflexivity. Qed.

(** Even for a line a pattern matches, the sample is not stored while
    the attribute [last_hashrate] does not exist. *)
Lemma capture_without_attribute (st : State) :
  last_hashrate st = None ->
  _maybe_capture_hashrate "xmrig" "speed 10s/60s/15m 1234.5 H/s" st
  = Raise (AttributeError "'MinerGUI' object has no attribute 'last_hashrate'").
Proof.
  intros H. unfold _maybe_capture_hashrate.
  change (lower "xmrig") with "xmrig". simpl (negb _).
  replace (hashrate_match (strip_ansi "speed 10s/60s/15m 1234.5 H/s"))
    with (Some ("1234.5", "H/s")) by (vm_compute; reflexivity).
  rewrite H. reflexivity.
Qed.

(** C3. Processing the line
    [speed 10s/60s/15m 1234.5 5678.9 n/a H/s] for the miner [xmrig]:
    neither pattern matches it, so the stored hashrate sample is left
    as it was, in [_maybe_capture_hashrate] and in the whole handling
    of the line. *)
Theorem C3_speed_line_leaves_sample_unchanged (st : State) :
  hashrate_match (strip_ansi speed_line) = None
  /\ _maybe_capture_hashrate "xmrig" speed_line st = Ok st
  /\ last_hashrate (process_line "xmrig" speed_line st) = last_hashrate st.
Proof.
  assert (H : hashrate_match (strip_ansi speed_line) = None)
    by (vm_compute; reflexivity).
  assert (H1 : _maybe_capture_hashrate "xmrig" speed_line st = Ok st).
  { unfold _maybe_capture_hashrate.
    change (lower "xmrig") with "xmrig". simpl (negb _). rewrite H. reflexivity. }
  split; [exact H|]. split; [exact H1|].
  unfold process_line. rewrite H1. reflexivity.
Qed.

End Hashrate.

(** ** The generated configuration *)

Module Config.
Import PyStr Output Resolve Json Supervisor Spec Support.

#[local] Arguments dumps : simpl never.

Lemma nonempty_false (s : string) : nonempty s = false <-> s = EmptyString.
Proof. destruct s; simpl; split; congruence. Qed.



Lemma pool_pass_given (pass : string) :
  strip pass <> EmptyString -> pool_pass pass = strip pass.
Proof.
  intros H. unfold pool_pass. destruct pass as [|c p]; [exfalso; apply H; reflexivity|].
  simpl (or_default (String c p) "x").
  destruct (strip (String c p)); [congruence|reflexivity].
Qed.


(** The scenario of the specification: wallet WALLET1 and worker rig1. *)
Lemma wallet1_user : pool_user "WALLET1" "rig1" = "WALLET1.rig1".
Proof. vm_compute; reflexivity. Qed.


End Config.

(** ** Decoding never raises *)

Module DecodeProps.
Import Decode Support.

Lemma utf8_one_shorter (b0 : N) (r0 : list N) :
  match utf8_one b0 r0 with
  | Cp _ rest => length rest <= length r0
  | Bad rest => length rest <= length r0
  end.
Proof.
  unfold utf8_one.
  repeat match goal with
         | |- context [if ?c then _ else _] => destruct c
         | |- context [match ?l with [] => _ | _ :: _ => _ end] => destruct l
         end; simpl; lia.
Qed.

(** The lossy decoder has enough steps: it always produces text. *)
Lemma utf8_run_lossy_total (fuel : nat) :
  forall bs, length bs <= fuel -> exists t, utf8_run true fuel bs = Some t.
Proof.
  induction fuel as [|fuel IH]; intros bs Hlen.
  - destruct bs; [exists []; reflexivity | simpl in Hlen; lia].
  - destruct bs as [|b0 r0]; [exists []; reflexivity|].
    simpl in Hlen. simpl.
    pose proof (utf8_one_shorter b0 r0) as Hs.
    destruct (utf8_one b0 r0) as [cp rest|rest];
      (destruct (IH rest ltac:(lia)) as [t Ht]; rewrite Ht; eexists; reflexivity).
Qed.

(** Where strict decoding succeeds the lossy decoder gives the same text. *)
Lemma utf8_run_strict_lossy (fuel : nat) :
  forall bs t, utf8_run false fuel bs = Some t -> utf8_run true fuel bs = Some t.
Proof.
  induction fuel as [|fuel IH]; intros bs t H.
  - destruct bs; simpl in *; congruence.
  - destruct bs as [|b0 r0]; simpl in *; [congruence|].
    destruct (utf8_one b0 r0) as [cp rest|rest]; [|discriminate].
    destruct (utf8_run false fuel rest) as [t'|] eqn:E; [|discriminate].
    rewrite (IH _ _ E). exact H.
Qed.

Lemma utf8_replace_cp_total (b : list byte) : exists t, utf8_replace_cp b = Ok t.
Proof.
  unfold utf8_replace_cp.
  destruct (utf8_run_lossy_total (length b) (bytes_N b)) as [t Ht].
  - unfold bytes_N. rewrite length_map. lia.
  - rewrite Ht. eexists; reflexivity.
Qed.

Lemma utf8_strict_cp_error (b : list byte) (e : exn) :
  utf8_strict_cp b = Raise e -> e = UnicodeDecodeError.
Proof.
  unfold utf8_strict_cp. destruct (utf8_run false (length b) (bytes_N b)); congruence.
Qed.

Ltac cascade Hstrict tr :=
  match goal with
  | |- context [decode_process_bytes ?cd ?w ?b] =>
      destruct b as [|x b'];
      [ exists (empty_text cd); simpl; repeat split; congruence
      | assert (Hne : x :: b' <> []) by discriminate;
        unfold decode_process_bytes;
        destruct (utf8_strict cd (x :: b')) as [t0|e] eqn:Es;
        [ exists t0; repeat split; try congruence
        | rewrite (Hstrict e eq_refl);
          destruct w;
          [ destruct (mbcs_replace cd (x :: b')) as [t1|e1] eqn:Em;
            [ exists t1; repeat split; try congruence;
              intros [Hw|[e2 He2]]; congruence
            | exists tr; repeat split; try congruence ]
          | exists tr; repeat split; try congruence ] ] ]
  end.

(** C9. [decode_process_bytes] always ends with text, never with an
    exception, given that strict UTF-8 decoding fails only with a
    decoding error and that decoding with replacement does not fail: the
    empty input gives the empty text; input that is valid UTF-8 gives
    its strict decoding; otherwise, on Windows, the legacy code page
    decoding is returned when it succeeds; otherwise (another platform,
    or the code page decoding raised) the lossy UTF-8 decoding with
    replacement markers is returned. *)
Theorem C9_decode_process_bytes_total
        {text : Type} (cd : Codecs text) (w : bool) (b : list byte) :
  (forall e, utf8_strict cd b = Raise e -> e = UnicodeDecodeError) ->
  (exists t, utf8_replace cd b = Ok t) ->
  exists t,
    decode_process_bytes cd w b = Ok t
    /\ (b = [] -> t = empty_text cd)
    /\ (forall t0, b <> [] -> utf8_strict cd b = Ok t0 -> t = t0)
    /\ (forall e, b <> [] -> utf8_strict cd b = Raise e ->
        (w = true -> forall t1, mbcs_replace cd b = Ok t1 -> t = t1)
        /\ (w = false \/ (exists e1, mbcs_replace cd b = Raise e1) ->
            utf8_replace cd b = Ok t)).
Proof.
  intros Hstrict [tr Htr]. cascade Hstrict tr.
Qed.

(** With the UTF-8 codec over code points no assumption is left: for
    every legacy code page, platform and input there is a text result. *)
Lemma decode_code_points_total
      (mbcs : list byte -> result (list N)) (w : bool) (b : list byte) :
  exists t, decode_process_bytes (cp_codecs mbcs) w b = Ok t.
Proof.
  destruct (utf8_replace_cp_total b) as [tr Htr].
  assert (Hstrict : forall e, utf8_strict (cp_codecs mbcs) b = Raise e ->
                              e = UnicodeDecodeError)
    by (intros e; apply utf8_strict_cp_error).
  assert (H : exists t,
             decode_process_bytes (cp_codecs mbcs) w b = Ok t
             /\ (b = [] -> t = empty_text (cp_codecs mbcs))
             /\ (forall t0, b <> [] -> utf8_strict (cp_codecs mbcs) b = Ok t0 -> t = t0)
             /\ (forall e, b <> [] -> utf8_strict (cp_codecs mbcs) b = Raise e ->
                 (w = true -> forall t1, mbcs_replace (cp_codecs mbcs) b = Ok t1 -> t = t1)
                 /\ (w = false \/ (exists e1, mbcs_replace (cp_codecs mbcs) b = Raise e1) ->
                     utf8_replace (cp_codecs mbcs) b = Ok t)))
    by (change (utf8_replace_cp b) with (utf8_replace (cp_codecs mbcs) b) in Htr;
        cascade Hstrict tr).
  destruct H as (t & Ht & _). exists t. exact Ht.
Qed.

(** Bytes that are not UTF-8: the marker U+FFFD stands for the bad byte
    off Windows, the code page decides on Windows. *)
Lemma decode_bad_byte_lossy :
  decode_process_bytes (cp_codecs latin1_mbcs) false [xff; x4f; x4b]
  = Ok [65533; 79; 75]%N.
Proof. vm_compute; reflexivity. Qed.

Lemma C9_witness :
  (forall e, utf8_strict (cp_codecs latin1_mbcs) [xff; x4f; x4b] = Raise e ->
             e = UnicodeDecodeError)
  /\ (exists t, utf8_replace (cp_codecs latin1_mbcs) [xff; x4f; x4b] = Ok t)
  /\ exists t,
       decode_process_bytes (cp_codecs latin1_mbcs) true [xff; x4f; x4b] = Ok t
       /\ t = [255; 79; 75]%N.
Proof.
  assert (H1 : forall e, utf8_strict (cp_codecs latin1_mbcs) [xff; x4f; x4b] = Raise e ->
                         e = UnicodeDecodeError)
    by (intros e H; vm_compute in H; congruence).
  assert (H2 : exists t, utf8_replace (cp_codecs latin1_mbcs) [xff; x4f; x4b] = Ok t)
    by (eexists; vm_compute; reflexivity).
  split; [exact H1|]. split; [exact H2|].
  destruct (C9_decode_process_bytes_total
              (cp_codecs latin1_mbcs) true [xff; x4f; x4b] H1 H2)
    as (t & Ht & _ & _ & Hfall).
  exists t. split; [exact Ht|].
  destruct (Hfall UnicodeDecodeError ltac:(discriminate) ltac:(vm_compute; reflexivity))
    as [Hm _].
  apply (Hm eq_refl). vm_compute; reflexivity.
Defined.

End DecodeProps.

(** ** Stop, resume and kill: what they leave alone *)

Module Quiet.
Import PyStr Sys Supervisor Spec Frame Support.

Lemma swept_snoc (tr : list Event) (e : Event) :
  swept (tr ++ [e]) = swept tr ++ swept_by e.
Proof. unfold swept. rewrite flat_map_app. simpl. rewrite app_nil_r. reflexivity. Qed.

Lemma proc_kills_snoc (tr : list Event) (e : Event) :
  proc_kills (tr ++ [e]) = proc_kills tr + (if is_proc_kill e then 1 else 0).
Proof.
  unfold proc_kills. rewrite List.filter_app, List.length_app. simpl.
  destruct (is_proc_kill e); reflexivity.
Qed.

Lemma quiet_refl (miner_id : string) (st : State) : quiet miner_id st st.
Proof. constructor; reflexivity. Qed.

Lemma quiet_trans (miner_id : string) (a b c : State) :
  quiet miner_id a b -> quiet miner_id b c -> quiet miner_id a c.
Proof.
  intros [] []. constructor; try congruence.
  intros k Hk. rewrite q_paused1, q_paused0 by exact Hk. reflexivity.
Qed.

Lemma quiet_emit (miner_id : string) (e : Event) (st st' : State) :
  quiet miner_id st st' -> is_proc_kill e = false -> swept_by e = [] ->
  quiet miner_id st (emit e st').
Proof.
  intros H He Hs. apply (quiet_trans _ _ st'); [exact H|].
  constructor; try reflexivity;
    change (trace (emit e st')) with (trace st' ++ [e]).
  - rewrite proc_kills_snoc, He. lia.
  - rewrite swept_snoc, Hs. apply app_nil_r.
Qed.

Lemma quiet_set_paused (miner_id : string) (b : bool) (st st' : State) :
  quiet miner_id st st' -> quiet miner_id st (set_paused miner_id b st').
Proof.
  intros H. apply (quiet_trans _ _ st'); [exact H|].
  constructor; try reflexivity.
  intros k Hk. unfold set_paused; cbn. apply lookup_insert_ne. congruence.
Qed.

Lemma quiet_set_timers (miner_id : string) (ts : list string) (st st' : State) :
  quiet miner_id st st' -> quiet miner_id st (set_timers ts st').
Proof.
  intros H. apply (quiet_trans _ _ st'); [exact H|]. constructor; reflexivity.
Qed.

Lemma quiet_when (miner_id : string) (b : bool) (f : State -> State) (st st' : State) :
  quiet miner_id st st' -> (forall s, quiet miner_id s (f s)) ->
  quiet miner_id st (when b f st').
Proof.
  intros H Hf. destruct b; [|exact H].
  apply (quiet_trans _ _ st'); [exact H | apply Hf].
Qed.

Ltac quiet_step :=
  first
    [ apply quiet_refl
    | apply quiet_emit; [|reflexivity|reflexivity]
    | apply quiet_set_paused
    | apply quiet_set_timers
    | apply quiet_when; [|intros] ].

Lemma quiet_is_running (miner_id k : string) (st st' : State) :
  quiet miner_id st st' -> is_running st' k = is_running st k.
Proof.
  intros []. unfold is_running, get, qstate. rewrite q_procs0, q_qprocs0. reflexivity.
Qed.

Lemma quiet_live_pid (miner_id k : string) (st st' : State) :
  quiet miner_id st st' -> live_pid st' k = live_pid st k.
Proof. intros []. unfold live_pid, get. rewrite q_pids0. reflexivity. Qed.

Lemma quiet_find (miner_id k : string) (st st' : State) :
  quiet miner_id st st' -> _find_miner st' k = _find_miner st k.
Proof. intros []. unfold _find_miner. rewrite q_miners0. reflexivity. Qed.

Lemma resume_quiet (env : Env) (miner_id : string) (silent : bool) (st : State) :
  quiet miner_id st (resume_miner env miner_id silent st).
Proof.
  unfold resume_miner, _log_global.
  destruct (negb (win32 env)); [repeat quiet_step|].
  destruct (negb (is_running st miner_id)); [repeat quiet_step|].
  destruct (negb (is_paused st miner_id)); [repeat quiet_step|].
  destruct (live_pid st miner_id) as [pid|]; [|repeat quiet_step].
  destruct (resume_process env pid); repeat quiet_step.
Qed.

Lemma resume_timers (env : Env) (miner_id : string) (silent : bool) (st : State) :
  timers (resume_miner env miner_id silent st) = timers st.
Proof.
  unfold resume_miner, _log_global, when.
  destruct (negb (win32 env)); [destruct (negb silent); reflexivity|].
  destruct (negb (is_running st miner_id)); [reflexivity|].
  destruct (negb (is_paused st miner_id)); [reflexivity|].
  destruct (live_pid st miner_id) as [pid|]; [|reflexivity].
  destruct (resume_process env pid); destruct (negb silent); reflexivity.
Qed.

(** A resume on an identity that is not paused changes nothing. *)
Lemma resume_not_paused (env : Env) (miner_id : string) (st : State) :
  is_running st miner_id = true -> is_paused st miner_id = false ->
  resume_miner env miner_id true st = st.
Proof.
  intros Hr Hp. unfold resume_miner. rewrite Hr, Hp.
  destruct (win32 env); reflexivity.
Qed.

Lemma stop_quiet (env : Env) (miner_id : string) (st : State) :
  quiet miner_id st (stop_miner env miner_id st).
Proof.
  unfold stop_miner, _log_global.
  destruct (get (procs st) miner_id) as [h|]; [|repeat quiet_step].
  destruct (not_running (qstate st h)); [repeat quiet_step|].
  repeat quiet_step. apply resume_quiet.
Qed.

(** Stop on a running identity arms exactly one timer, for that identity. *)
Lemma stop_running_timers (env : Env) (miner_id : string) (st : State) :
  is_running st miner_id = true ->
  timers (stop_miner env miner_id st) = timers st ++ [miner_id].
Proof.
  unfold is_running, stop_miner.
  destruct (get (procs st) miner_id) as [h|]; [|discriminate].
  destruct (not_running (qstate st h)); [discriminate|]. intros _.
  cbn. unfold when. destruct (is_paused st miner_id); [|reflexivity].
  rewrite resume_timers. reflexivity.
Qed.

Lemma fold_left_quiet {B : Type} (miner_id : string) (f : State -> B -> State)
      (l : list B) (st : State) :
  (forall s b, quiet miner_id s (f s b)) -> quiet miner_id st (fold_left f l st).
Proof.
  intros Hf. revert st. induction l as [|b l IH]; intros st; simpl.
  - apply quiet_refl.
  - eapply quiet_trans; [apply Hf | apply IH].
Qed.

End Quiet.

(** ** Facts about the string primitives *)

Module StrProps.
Import PyStr Support.

Lemma rstrip_cons (c : ascii) (s : string) :
  rstrip (String c s)
  = match rstrip s with
    | EmptyString => if isspace c then EmptyString else String c EmptyString
    | t => String c t
    end.
Proof. reflexivity. Qed.

Lemma rstrip_idem (s : string) : rstrip (rstrip s) = rstrip s.
Proof.
  induction s as [|c s IH]; [reflexivity|].
  rewrite rstrip_cons. destruct (rstrip s) as [|d t] eqn:Er.
  - destruct (isspace c) eqn:Ec; [reflexivity|].
    rewrite rstrip_cons. simpl. rewrite Ec. reflexivity.
  - rewrite rstrip_cons, IH. reflexivity.
Qed.

Lemma lstrip_starts_ok (s : string) : starts_ok (lstrip s).
Proof.
  induction s as [|c s IH]; simpl; [exact I|].
  destruct (isspace c) eqn:Ec; [exact IH | exact Ec].
Qed.

Lemma rstrip_starts_ok (t : string) : starts_ok t -> starts_ok (rstrip t).
Proof.
  destruct t as [|c t]; [intros; exact I|].
  simpl starts_ok at 1. intros Hc. rewrite rstrip_cons.
  destruct (rstrip t); [rewrite Hc|]; exact Hc.
Qed.

Lemma lstrip_fixed (t : string) : starts_ok t -> lstrip t = t.
Proof. destruct t as [|c t]; simpl; [reflexivity|]. intros ->. reflexivity. Qed.

(** Stripping twice is stripping once. *)
Lemma strip_idem (s : string) : strip (strip s) = strip s.
Proof.
  unfold strip.
  rewrite (lstrip_fixed (rstrip (lstrip s))).
  - apply rstrip_idem.
  - apply rstrip_starts_ok, lstrip_starts_ok.
Qed.



End StrProps.

(** ** The kill helpers on the process table *)

Module KillProps.
Import PyStr Re Sys Supervisor Spec Support.

Lemma kill_loop_spec (l : string) (ps : list SysProc) :
  forall (killed : Z) (alive : list SysProc),
    kill_loop l ps killed alive
    = ((killed + Z.of_nat (length (List.filter (hit l) ps)))%Z,
       alive ++ List.filter (fun p => negb (hit l p)) ps).
Proof.
  induction ps as [|p ps IH]; intros killed alive.
  - simpl. rewrite Z.add_0_r, app_nil_r. reflexivity.
  - cbn [kill_loop List.filter]. fold (proc_name p).
    destruct (String.eqb (lower (proc_name p)) l) eqn:En;
      destruct (sp_protected p) eqn:Ep;
      (assert (Hh : hit l p = negb (sp_protected p) && String.eqb (lower (proc_name p)) l)
         by (unfold hit; apply andb_comm));
      rewrite Hh, En, Ep; cbn [negb andb length]; rewrite IH.
    + rewrite <- app_assoc. reflexivity.
    + f_equal. lia.
    + rewrite <- app_assoc. reflexivity.
    + rewrite <- app_assoc. reflexivity.
Qed.

(** What [kill_by_name] does with a name that passes the check. *)
Lemma kill_by_name_accepted (name : string) (tbl : list SysProc) :
  matched (re_match true SAFE_EXE_NAME_RE (strip name)) = true ->
  kill_by_name name tbl
  = (Z.of_nat (length (List.filter (hit (lower (strip name))) tbl)),
     List.filter (fun p => negb (hit (lower (strip name)) p)) tbl).
Proof.
  unfold kill_by_name.
  destruct (re_match true SAFE_EXE_NAME_RE (strip name)); [|discriminate].
  intros _. rewrite kill_loop_spec. reflexivity.
Qed.

Lemma kill_by_name_rejected (name : string) (tbl : list SysProc) :
  matched (re_match true SAFE_EXE_NAME_RE (strip name)) = false ->
  kill_by_name name tbl = (0%Z, tbl).
Proof.
  unfold kill_by_name.
  destruct (re_match true SAFE_EXE_NAME_RE (strip name)); [discriminate|reflexivity].
Qed.

(** The table after [kill_by_name] is a part of the table before. *)
Lemma kill_by_name_incl (name : string) (tbl : list SysProc) (p : SysProc) :
  In p (snd (kill_by_name name tbl)) -> In p tbl.
Proof.
  destruct (matched (re_match true SAFE_EXE_NAME_RE (strip name))) eqn:E.
  - rewrite kill_by_name_accepted by exact E. simpl.
    intros H. apply List.filter_In in H. tauto.
  - rewrite kill_by_name_rejected by exact E. simpl. tauto.
Qed.

(** No killable process with the wanted name is left. *)
Lemma kill_by_name_survivors (alias : string) (tbl : list SysProc) (p : SysProc) :
  In p (snd (kill_by_name (strip alias) tbl)) ->
  targeted alias p = true -> sp_protected p = true.
Proof.
  unfold targeted. intros Hin Ht.
  apply andb_true_iff in Ht. destruct Ht as [Hm Hn].
  assert (Hs : strip (strip alias) = strip alias -> sp_protected p = true).
  { intros Hss.
    rewrite kill_by_name_accepted in Hin by (rewrite Hss; exact Hm).
    simpl in Hin. apply List.filter_In in Hin. destruct Hin as [_ Hh].
    unfold hit in Hh. rewrite Hss in Hh. fold (proc_name p) in Hn.
    rewrite Hn in Hh. simpl in Hh. destruct (sp_protected p); [reflexivity|discriminate]. }
  apply Hs. apply StrProps.strip_idem.
Qed.

Lemma sweep_table_incl (kills : list string) :
  forall (tbl : list SysProc) (p : SysProc), In p (sweep_table kills tbl) -> In p tbl.
Proof.
  induction kills as [|k kills IH]; intros tbl p; simpl; [tauto|].
  intros H. apply IH in H. apply kill_by_name_incl in H. exact H.
Qed.

(** After the sweep no killable process carries any of the names. *)
Lemma sweep_table_survivors (kills : list string) :
  forall (tbl : list SysProc) (alias : string) (p : SysProc),
    In alias kills -> In p (sweep_table kills tbl) ->
    targeted alias p = true -> sp_protected p = true.
Proof.
  induction kills as [|k kills IH]; intros tbl alias p Hin Hp Ht; simpl in *; [tauto|].
  destruct Hin as [->|Hin].
  - apply sweep_table_incl in Hp.
    apply (kill_by_name_survivors alias tbl p Hp Ht).
  - apply (IH _ alias p Hin Hp Ht).
Qed.

End KillProps.

(** ** Start of an unconfigured miner *)

Module StartProps.
Import PyStr Sys Supervisor Spec Frame Quiet Support.











(** With the exclusivity flag on, a start that ends with [NotConfigured]
    has already stopped the running miner: its pause flag is cleared, it
    was sent the terminate signal and its escalation timer is armed. *)
Lemma exclusive_start_stops_before_path_check :
  let r := start_miner (Sample.sample_env true) "wildrig" (Sample.xmrig_paused true) in
  fst r = NotConfigured
  /\ proc_paused (Sample.xmrig_paused true) !! "xmrig" = Some true
  /\ proc_paused (snd r) !! "xmrig" = Some false
  /\ timers (snd r) = ["xmrig"]
  /\ In (ProcTerminate 0) (trace (snd r)).
Proof.
  vm_compute. repeat split; auto 10.
Qed.


End StartProps.

(** ** Kill and the escalation of Stop *)

Module KillMiner.
Import PyStr Sys Supervisor Spec Frame Quiet KillProps Support.

Lemma gentle_refl (st : State) : gentle st st.
Proof. constructor; reflexivity. Qed.

Lemma gentle_trans (a b c : State) : gentle a b -> gentle b c -> gentle a c.
Proof. intros [] []. constructor; congruence. Qed.

Lemma kills_emit (e : Event) (st : State) :
  proc_kills (trace (emit e st))
  = proc_kills (trace st) + (if is_proc_kill e then 1 else 0).
Proof. apply proc_kills_snoc. Qed.

Ltac gentle_fields :=
  constructor;
  [ reflexivity
  | reflexivity
  | unfold _log_global; rewrite ?kills_emit;
    cbn [trace set_procs set_proc_pids set_proc_paused set_paused
         set_proc_last_error set_sys_procs set_qprocs set_timers is_proc_kill];
    rewrite ?kills_emit; cbn [is_proc_kill]; lia ].

Lemma gentle_on_proc_error (miner_id err err_str : string) (st : State) :
  gentle st (_on_proc_error miner_id err err_str st).
Proof. unfold _on_proc_error. gentle_fields. Qed.

Lemma gentle_set_paused (miner_id : string) (b : bool) (st : State) :
  gentle st (set_paused miner_id b st).
Proof. constructor; reflexivity. Qed.

Lemma gentle_on_proc_finished (miner_id : string) (code : Z) (st : State) :
  gentle st (_on_proc_finished miner_id code st).
Proof.
  unfold _on_proc_finished. cbv zeta.
  constructor; [reflexivity | reflexivity |].
  rewrite kills_emit. unfold set_paused.
  cbn [trace set_procs set_proc_pids set_proc_paused set_proc_last_error is_proc_kill].
  unfold _log_global. rewrite kills_emit. cbn [is_proc_kill]. lia.
Qed.

Lemma gentle_set_qstate (h : handle) (q : QState) (st : State) :
  gentle st (set_qstate h q st).
Proof.
  unfold set_qstate. destruct (qprocs st !! h) as [[q0 owner]|];
    constructor; reflexivity.
Qed.

Lemma gentle_deliver (h : handle) (sig : QtSignal) (st : State) :
  gentle st (deliver h sig st).
Proof.
  unfold deliver. destruct (qprocs st !! h) as [[q0 owner]|]; [|apply gentle_refl].
  destruct sig as [err err_str|code].
  - apply gentle_on_proc_error.
  - eapply gentle_trans; [apply gentle_set_qstate | apply gentle_on_proc_finished].
Qed.

Lemma gentle_deliver_all (h : handle) (sigs : list QtSignal) :
  forall st, gentle st (deliver_all h sigs st).
Proof.
  unfold deliver_all. induction sigs as [|sig sigs IH]; intros st; simpl.
  - apply gentle_refl.
  - eapply gentle_trans; [apply gentle_deliver | apply IH].
Qed.

Lemma gentle_resume (env : Env) (miner_id : string) (silent : bool) (st : State) :
  gentle st (resume_miner env miner_id silent st).
Proof.
  pose proof (resume_quiet env miner_id silent st) as [].
  constructor; [apply resume_timers | assumption | assumption].
Qed.

Lemma gentle_when (b : bool) (f : State -> State) (st : State) :
  (forall s, gentle s (f s)) -> gentle st (when b f st).
Proof. intros H. destruct b; [apply H | apply gentle_refl]. Qed.

Lemma gentle_kill_sweep (kills : list string) :
  forall (n : Z) (st : State), gentle st (snd (kill_sweep kills n st)).
Proof.
  induction kills as [|k kills IH]; intros n st; simpl; [apply gentle_refl|].
  destruct (kill_by_name (strip k) (sys_procs st)) as [m tbl].
  eapply gentle_trans; [|apply IH]. gentle_fields.
Qed.

Lemma kill_sweep_sys (kills : list string) :
  forall (n : Z) (st : State),
    sys_procs (snd (kill_sweep kills n st)) = sweep_table kills (sys_procs st).
Proof.
  induction kills as [|k kills IH]; intros n st; simpl; [reflexivity|].
  destruct (kill_by_name (strip k) (sys_procs st)) as [m tbl] eqn:E.
  rewrite IH. reflexivity.
Qed.

Lemma kill_sweep_swept (kills : list string) :
  forall (n : Z) (st : State),
    swept (trace (snd (kill_sweep kills n st))) = swept (trace st) ++ map strip kills.
Proof.
  induction kills as [|k kills IH]; intros n st; simpl.
  - rewrite app_nil_r. reflexivity.
  - destruct (kill_by_name (strip k) (sys_procs st)) as [m tbl] eqn:E.
    rewrite IH.
    change (trace (emit (KillByName (strip k) m) (set_sys_procs tbl st)))
      with (trace st ++ [KillByName (strip k) m]).
    rewrite swept_snoc. simpl. rewrite <- app_assoc. reflexivity.
Qed.

(** Records other than the process table are as the sweep found them. *)
Lemma kill_sweep_records (kills : list string) :
  forall (n : Z) (st : State),
    let st' := snd (kill_sweep kills n st) in
    procs st' = procs st /\ proc_pids st' = proc_pids st
    /\ proc_paused st' = proc_paused st.
Proof.
  induction kills as [|k kills IH]; intros n st; simpl; [repeat split|].
  destruct (kill_by_name (strip k) (sys_procs st)) as [m tbl] eqn:E.
  destruct (IH (n + m)%Z (emit (KillByName (strip k) m) (set_sys_procs tbl st)))
    as (H1 & H2 & H3).
  repeat split; assumption.
Qed.

Lemma kill_miner_unfold (env : Env) (miner_id : string) (st : State) :
  kill_miner env miner_id st
  = kill_tail miner_id (miner_name st miner_id) (kill_names_of st miner_id)
              (kill_head env miner_id st).
Proof. reflexivity. Qed.

Lemma kill_tail_cleared (miner_id name : string) (kills : list string) (st : State) :
  cleared miner_id (kill_tail miner_id name kills st).
Proof.
  unfold kill_tail. cbv zeta.
  destruct (kill_sweep kills 0 _) as [killed_total st2].
  unfold cleared, when, set_paused, _log_global.
  destruct (negb (killed_total =? 0)%Z); cbn;
    repeat split; apply lookup_insert_eq.
Qed.

Lemma kill_tail_gentle (miner_id name : string) (kills : list string) (st : State) :
  gentle st (kill_tail miner_id name kills st).
Proof.
  unfold kill_tail. cbv zeta.
  set (st1 := match live_pid st miner_id with
              | Some pid => _
              | None => st
              end).
  assert (H1 : gentle st st1).
  { subst st1. destruct (live_pid st miner_id); [gentle_fields | apply gentle_refl]. }
  pose proof (gentle_kill_sweep kills 0%Z st1) as H2.
  destruct (kill_sweep kills 0 st1) as [killed_total st2]. cbn [snd] in H2.
  eapply gentle_trans; [exact H1|]. eapply gentle_trans; [exact H2|].
  unfold when, set_paused.
  destruct (negb (killed_total =? 0)%Z); gentle_fields.
Qed.

Lemma kill_tail_sys (miner_id name : string) (kills : list string) (st : State) :
  sys_procs (kill_tail miner_id name kills st)
  = sweep_table kills
      (match live_pid st miner_id with
       | Some pid => kill_process_tree pid true (sys_procs st)
       | None => sys_procs st
       end).
Proof.
  unfold kill_tail. cbv zeta.
  set (st1 := match live_pid st miner_id with
              | Some pid => _
              | None => st
              end).
  pose proof (kill_sweep_sys kills 0%Z st1) as H.
  destruct (kill_sweep kills 0 st1) as [killed_total st2]. cbn [snd] in H.
  unfold when, set_paused, _log_global.
  destruct (negb (killed_total =? 0)%Z); cbn; rewrite H; subst st1;
    destruct (live_pid st miner_id); reflexivity.
Qed.

Lemma kill_tail_swept (miner_id name : string) (kills : list string) (st : State) :
  swept (trace (kill_tail miner_id name kills st))
  = swept (trace st) ++ map strip kills.
Proof.
  unfold kill_tail. cbv zeta.
  set (st1 := match live_pid st miner_id with
              | Some pid => _
              | None => st
              end).
  assert (H1 : swept (trace st1) = swept (trace st)).
  { subst st1. destruct (live_pid st miner_id) as [pid|]; [|reflexivity].
    change (trace (emit (KillTree pid) _)) with (trace st ++ [KillTree pid]).
    rewrite swept_snoc. apply app_nil_r. }
  pose proof (kill_sweep_swept kills 0%Z st1) as H.
  destruct (kill_sweep kills 0 st1) as [killed_total st2]. cbn [snd] in H.
  unfold when, set_paused, _log_global.
  destruct (negb (killed_total =? 0)%Z);
    cbn [trace emit set_trace set_procs set_proc_pids set_proc_paused];
    rewrite ?swept_snoc; cbn [swept_by]; rewrite ?app_nil_r; rewrite H, H1; reflexivity.
Qed.

Lemma cleared_not_running (miner_id : string) (st : State) :
  cleared miner_id st -> is_running st miner_id = false.
Proof. intros (H & _). unfold is_running, get. rewrite H. reflexivity. Qed.

(** With no tracked handle the head of [kill_miner] at most resets the
    pause flag. *)
Lemma kill_head_untracked (env : Env) (miner_id : string) (st : State) :
  get (procs st) miner_id = None ->
  quiet miner_id st (kill_head env miner_id st).
Proof.
  intros Hg. unfold kill_head. cbv zeta.
  assert (Hq : quiet miner_id st
                 (when (is_paused st miner_id) (resume_miner env miner_id true) st)).
  { apply quiet_when; [apply quiet_refl | intros s; apply resume_quiet]. }
  assert (Hg' : get (procs (when (is_paused st miner_id)
                              (resume_miner env miner_id true) st)) miner_id = None).
  { rewrite (q_procs _ _ _ Hq). exact Hg. }
  rewrite Hg'. exact Hq.
Qed.

(** With a running process the head calls [proc.kill()] exactly once. *)
Lemma kill_head_running (env : Env) (miner_id : string) (st : State) :
  is_running st miner_id = true ->
  proc_kills (trace (kill_head env miner_id st)) = S (proc_kills (trace st))
  /\ timers (kill_head env miner_id st) = timers st.
Proof.
  intros Hrun. unfold kill_head. cbv zeta.
  set (st1 := when (is_paused st miner_id) (resume_miner env miner_id true) st).
  assert (Hq : quiet miner_id st st1).
  { apply quiet_when; [apply quiet_refl | intros s; apply resume_quiet]. }
  assert (Ht : timers st1 = timers st).
  { subst st1. unfold when. destruct (is_paused st miner_id); [|reflexivity].
    apply resume_timers. }
  pose proof (quiet_is_running miner_id miner_id st st1 Hq) as Hr1.
  rewrite Hrun in Hr1. unfold is_running in Hr1.
  destruct (get (procs st1) miner_id) as [h|]; [|discriminate].
  destruct (not_running (qstate st1 h)); [discriminate|].
  pose proof (gentle_deliver_all h (wait_finished env h)
                (emit (WaitForFinished h 2000)
                   (emit (ProcKill h)
                      (_log_global (miner_name st miner_id +:+ ": Force kill requested.")
                                   st1)))) as [G1 _ G3].
  rewrite G1, G3. unfold _log_global. rewrite !kills_emit. cbn [is_proc_kill].
  rewrite (q_kills _ _ _ Hq). split; [lia | exact Ht].
Qed.

(** The escalation callback on an identity tracked as running: one
    [proc.kill()], the record cleared, the timers untouched. *)
Lemma escalate_running (env : Env) (miner_id : string) (st : State) :
  is_running st miner_id = true ->
  proc_kills (trace (_escalate_kill_if_running env miner_id st))
  = S (proc_kills (trace st))
  /\ cleared miner_id (_escalate_kill_if_running env miner_id st)
  /\ timers (_escalate_kill_if_running env miner_id st) = timers st.
Proof.
  intros H. unfold _escalate_kill_if_running. rewrite H.
  set (s := _log_global _ st).
  assert (Hs : is_running s miner_id = true) by exact H.
  rewrite kill_miner_unfold.
  pose proof (kill_tail_gentle miner_id (miner_name s miner_id)
                (kill_names_of s miner_id) (kill_head env miner_id s)) as [G1 _ G3].
  destruct (kill_head_running env miner_id s Hs) as [K1 K2].
  rewrite G1, G3, K1, K2.
  split; [subst s; unfold _log_global; rewrite kills_emit; cbn [is_proc_kill]; lia|].
  split; [apply kill_tail_cleared | reflexivity].
Qed.

(** The escalation callback on an identity not tracked as running. *)
Lemma escalate_not_running (env : Env) (miner_id : string) (st : State) :
  is_running st miner_id = false -> _escalate_kill_if_running env miner_id st = st.
Proof. intros H. unfold _escalate_kill_if_running. rewrite H. reflexivity. Qed.


(** Two Stops arm two timers; the first to fire kills, the second finds
    the identity no longer running: still one [proc.kill()]. *)
Lemma stop_twice_kills_once (env : Env) (st : State) (miner_id : string) :
  is_running st miner_id = true -> timers st = [] ->
  let st4 := run env [DoStop miner_id; DoStop miner_id; TimerFires; TimerFires] st in
  proc_kills (trace st4) = S (proc_kills (trace st))
  /\ cleared miner_id st4
  /\ timers st4 = [].
Proof.
  intros Hrun Hnil. cbn [run fold_left step].
  set (st1 := stop_miner env miner_id st).
  assert (Hq1 : quiet miner_id st st1) by apply stop_quiet.
  assert (Hr1 : is_running st1 miner_id = true)
    by (rewrite (quiet_is_running _ _ _ _ Hq1); exact Hrun).
  assert (Ht1 : timers st1 = [miner_id])
    by (subst st1; rewrite stop_running_timers, Hnil by exact Hrun; reflexivity).
  set (st2 := stop_miner env miner_id st1).
  assert (Hq2 : quiet miner_id st1 st2) by apply stop_quiet.
  assert (Hr2 : is_running st2 miner_id = true)
    by (rewrite (quiet_is_running _ _ _ _ Hq2); exact Hr1).
  assert (Ht2 : timers st2 = [miner_id; miner_id])
    by (subst st2; rewrite stop_running_timers, Ht1 by exact Hr1; reflexivity).
  rewrite Ht2.
  destruct (escalate_running env miner_id (set_timers [miner_id] st2) Hr2)
    as (A & B & D).
  set (st3 := _escalate_kill_if_running env miner_id (set_timers [miner_id] st2)) in *.
  cbn [timers set_timers] in D. rewrite D.
  assert (Hr3 : is_running (set_timers [] st3) miner_id = false)
    by (apply (cleared_not_running miner_id st3 B)).
  rewrite (escalate_not_running env miner_id _ Hr3).
  split; [cbn [trace set_timers]; rewrite A; cbn [trace set_timers];
          rewrite (q_kills _ _ _ Hq2), (q_kills _ _ _ Hq1); reflexivity|].
  split; [exact B | reflexivity].
Qed.


(** C10. Kill on an identity with no tracked handle still calls
    [kill_by_name] once for every configured alias, in order, on the
    process table (after the tree kill of a left-over pid, if any); no
    process that carries a well-formed alias as its name and can be
    killed is left; no [proc.kill()] is issued; and the record ends
    cleared: no handle, no pid, pause flag false. *)
Theorem C10_kill_without_tracked_process
        (env : Env) (st : State) (miner_id : string) :
  get (procs st) miner_id = None ->
  let kills := kill_names_of st miner_id in
  let st' := kill_miner env miner_id st in
  cleared miner_id st'
  /\ swept (trace st') = swept (trace st) ++ map strip kills
  /\ sys_procs st'
     = sweep_table kills
         (match live_pid st miner_id with
          | Some pid => kill_process_tree pid true (sys_procs st)
          | None => sys_procs st
          end)
  /\ (forall alias p,
        In alias kills -> In p (sys_procs st') ->
        targeted alias p = true -> sp_protected p = true)
  /\ proc_kills (trace st') = proc_kills (trace st).
Proof.
  intros Hg kills st'. subst st'. rewrite kill_miner_unfold. fold kills.
  pose proof (kill_head_untracked env miner_id st Hg) as Hq.
  assert (Hsys : sys_procs
                   (kill_tail miner_id (miner_name st miner_id) kills
                              (kill_head env miner_id st))
                 = sweep_table kills
                     (match live_pid st miner_id with
                      | Some pid => kill_process_tree pid true (sys_procs st)
                      | None => sys_procs st
                      end)).
  { rewrite kill_tail_sys, (quiet_live_pid _ _ _ _ Hq), (q_sys _ _ _ Hq). reflexivity. }
  split; [apply kill_tail_cleared|].
  split; [rewrite kill_tail_swept, (q_swept _ _ _ Hq); reflexivity|].
  split; [exact Hsys|].
  split.
  { intros alias p Ha Hp. rewrite Hsys in Hp.
    apply (sweep_table_survivors kills _ alias p Ha Hp). }
  pose proof (kill_tail_gentle miner_id (miner_name st miner_id) kills
                (kill_head env miner_id st)) as [_ _ G3].
  rewrite G3. apply (q_kills _ _ _ Hq).
Qed.

Lemma C10_witness :
  get (procs (Sample.initial false strangers)) "xmrig" = None
  /\ let st' := kill_miner (Sample.sample_env true) "xmrig"
                           (Sample.initial false strangers) in
     cleared "xmrig" st'
     /\ swept (trace st') = ["xmrig.exe"]
     /\ sys_procs st' = [ MkSysProc 502 1 (Some "xmrig.exe") true;
                          MkSysProc 503 1 (Some "notepad.exe") false ].
Proof.
  split; [vm_compute; reflexivity|].
  destruct (C10_kill_without_tracked_process
              (Sample.sample_env true) (Sample.initial false strangers) "xmrig"
              ltac:(vm_compute; reflexivity))
    as (H1 & H2 & H3 & _).
  split; [exact H1|]. split; [exact H2|].
  rewrite H3. vm_compute. reflexivity.
Defined.

End KillMiner.

(** ** Argument expansion and tokenization *)

Module ResolveProps.
Import PyStr Resolve Spec StrProps Support.















End ResolveProps.

(** ** The matcher on the patterns of the program *)

Module ReProps.
Import PyStr Re Output Spec StrProps Support.

(** A property of one character, checked on all 256 of them. *)
Ltac all_chars c :=
  destruct c as [[] [] [] [] [] [] [] []]; vm_compute; reflexivity.







(** *** Search: some position matches *)







(** *** Literal text *)



(** *** Whole words *)





End ReProps.

(** ** Keyword colouring *)

Module Classify.
Import PyStr Re Output Spec ReProps Support.



(** A line with the styling marker is rendered from its escape sequences;
    the keyword rules are not consulted. *)
Lemma styled_line_skips_rules (line miner_id : string) :
  contains csi line = true ->
  line_to_html_with_rules line miner_id = ansi_to_html_line line.
Proof. intros H. unfold line_to_html_with_rules. rewrite H. reflexivity. Qed.

(** The first matching rule wins: a line with both accepted and share is
    rendered in the success colour. *)
Lemma accepted_beats_share :
  keyword_color "XMRig" "accepted share (12/0) diff 1000" = Some success_color.
Proof. vm_compute; reflexivity. Qed.

(** Keywords are matched as whole words only. *)
Lemma keyword_inside_word : keyword_color "xmrig" "unaccepted" = None.
Proof. vm_compute; reflexivity. Qed.


End Classify.

(** ** The executable-name check *)

Module SafeName.
Import PyStr Re Sys Spec StrProps ReProps KillProps Support.
















(** The pattern alone also lets one final newline pass; [strip] removes
    it before the check. *)
Lemma pattern_lets_final_newline_pass :
  matched (re_match true SAFE_EXE_NAME_RE ("xmrig.exe" +:+ String newline EmptyString))
  = true
  /\ fst (kill_by_name ("xmrig.exe" +:+ String newline EmptyString)
                       [MkSysProc 7 1 (Some "xmrig.exe") false]) = 1%Z.
Proof. vm_compute. split; reflexivity. Qed.



End SafeName.

(** ** The hashrate attribute is never created *)

Module HashrateNever.
Import PyStr Output Resolve Sys Json Supervisor Spec Support Frame Quiet KillMiner.

Ltac split_state :=
  repeat match goal with
         | |- context [when ?b _ _] => unfold when; destruct b
         | |- context [if ?b then _ else _] => destruct b
         | |- context [match ?x with Some _ => _ | None => _ end] => destruct x
         end.

Lemma hash_resume (env : Env) (miner_id : string) (silent : bool) (st : State) :
  last_hashrate (resume_miner env miner_id silent st) = last_hashrate st.
Proof. apply (q_hash _ _ _ (resume_quiet env miner_id silent st)). Qed.

Lemma hash_stop (env : Env) (miner_id : string) (st : State) :
  last_hashrate (stop_miner env miner_id st) = last_hashrate st.
Proof. apply (q_hash _ _ _ (stop_quiet env miner_id st)). Qed.

Lemma hash_pause (env : Env) (miner_id : string) (silent : bool) (st : State) :
  last_hashrate (pause_miner env miner_id silent st) = last_hashrate st.
Proof. unfold pause_miner, _log_global. split_state; reflexivity. Qed.

Lemma hash_set_qstate (h : handle) (q : QState) (st : State) :
  last_hashrate (set_qstate h q st) = last_hashrate st.
Proof. unfold set_qstate. destruct (qprocs st !! h) as [[q0 o]|]; reflexivity. Qed.

Lemma hash_deliver (h : handle) (sig : QtSignal) (st : State) :
  last_hashrate (deliver h sig st) = last_hashrate st.
Proof.
  unfold deliver. destruct (qprocs st !! h) as [[q0 o]|]; [|reflexivity].
  destruct sig; [reflexivity|].
  unfold _on_proc_finished. cbn. apply hash_set_qstate.
Qed.

Lemma hash_deliver_all (h : handle) (sigs : list QtSignal) :
  forall st, last_hashrate (deliver_all h sigs st) = last_hashrate st.
Proof.
  unfold deliver_all. induction sigs as [|sig sigs IH]; intros st; [reflexivity|].
  simpl. rewrite IH. apply hash_deliver.
Qed.

Lemma hash_kill_sweep (kills : list string) :
  forall n st, last_hashrate (snd (kill_sweep kills n st)) = last_hashrate st.
Proof.
  induction kills as [|k kills IH]; intros n st; simpl; [reflexivity|].
  destruct (kill_by_name (strip k) (sys_procs st)) as [m tbl].
  rewrite IH. reflexivity.
Qed.

Lemma hash_kill_head (env : Env) (miner_id : string) (st : State) :
  last_hashrate (kill_head env miner_id st) = last_hashrate st.
Proof.
  unfold kill_head. cbv zeta.
  set (st1 := when (is_paused st miner_id) (resume_miner env miner_id true) st).
  assert (H1 : last_hashrate st1 = last_hashrate st).
  { subst st1. unfold when. destruct (is_paused st miner_id); [|reflexivity].
    apply hash_resume. }
  destruct (get (procs st1) miner_id) as [h|]; [|exact H1].
  destruct (not_running (qstate st1 h)); [exact H1|].
  rewrite hash_deliver_all. exact H1.
Qed.

Lemma hash_kill_tail (miner_id name : string) (kills : list string) (st : State) :
  last_hashrate (kill_tail miner_id name kills st) = last_hashrate st.
Proof.
  unfold kill_tail. cbv zeta.
  set (st1 := match live_pid st miner_id with
              | Some pid => _
              | None => st
              end).
  assert (H1 : last_hashrate st1 = last_hashrate st)
    by (subst st1; destruct (live_pid st miner_id); reflexivity).
  pose proof (hash_kill_sweep kills 0%Z st1) as H2.
  destruct (kill_sweep kills 0 st1) as [killed_total st2]. cbn [snd] in H2.
  unfold when. destruct (negb (killed_total =? 0)%Z); cbn; congruence.
Qed.

Lemma hash_kill (env : Env) (miner_id : string) (st : State) :
  last_hashrate (kill_miner env miner_id st) = last_hashrate st.
Proof. rewrite kill_miner_unfold, hash_kill_tail. apply hash_kill_head. Qed.

Lemma hash_stop_others (env : Env) (miner_id : string) (st : State) :
  last_hashrate (stop_others env miner_id st) = last_hashrate st.
Proof.
  unfold stop_others. generalize (miner_tabs st) as l. intros l. revert st.
  induction l as [|k l IH]; intros st; [reflexivity|].
  simpl. rewrite IH.
  destruct (negb (String.eqb k miner_id) && is_running st k); [|reflexivity].
  apply hash_stop.
Qed.

Lemma hash_write_config (env : Env) (exe : string) (st : State) :
  last_hashrate (snd (_write_xmrig_config env exe st)) = last_hashrate st.
Proof. unfold _write_xmrig_config. cbv zeta. split_state; reflexivity. Qed.

Lemma hash_choose (env : Env) (miner_id : string) (st : State) :
  last_hashrate (snd (_choose_bat_script_path env miner_id st)) = last_hashrate st.
Proof.
  unfold _choose_bat_script_path.
  destruct (_find_miner st miner_id) as [m|]; [|reflexivity].
  destruct (_bat_folder_and_active m) as [folder active].
  destruct (negb (nonempty folder)); [reflexivity|].
  destruct (list_bats env folder) as [|first more]; [reflexivity|].
  cbv zeta.
  destruct (filter _ active) as [|a [|b actives]].
  - destruct more; [reflexivity|].
    destruct (choose_item env _ _) as [choice|]; [|reflexivity].
    destruct (available _ choice); reflexivity.
  - reflexivity.
  - destruct (choose_item env _ _); reflexivity.
Qed.

Lemma hash_start_process (env : Env) (miner_id exe : string) (args : list string)
      (workdir : string) (st : State) :
  last_hashrate (snd (_start_process env miner_id exe args workdir st))
  = last_hashrate st.
Proof.
  unfold _start_process.
  destruct (negb (existsb (String.eqb miner_id) (miner_tabs st))); [reflexivity|].
  cbv zeta. destruct (launch env exe args _) as [pid|err sigs].
  - cbn [snd]. unfold when.
    destruct (auto_collapse_scripts_panel _); cbn; rewrite hash_set_qstate;
      reflexivity.
  - cbn [snd]. cbn. rewrite hash_deliver_all. reflexivity.
Qed.

Lemma hash_start (env : Env) (miner_id : string) (st : State) :
  last_hashrate (snd (start_miner env miner_id st)) = last_hashrate st.
Proof.
  unfold start_miner.
  destruct (_find_miner st miner_id) as [m|]; [|reflexivity].
  destruct (is_running st miner_id); [reflexivity|]. cbv zeta.
  set (st1 := when (single_active st) (stop_others env miner_id) st).
  assert (H1 : last_hashrate st1 = last_hashrate st).
  { subst st1. unfold when. destruct (single_active st); [|reflexivity].
    apply hash_stop_others. }
  destruct (negb (nonempty (strip (m_path m)))); [exact H1|].
  destruct (String.eqb _ "BAT").
  - pose proof (hash_choose env miner_id st1) as H2.
    destruct (_choose_bat_script_path env miner_id st1) as [[bat|] st2];
      cbn [snd] in H2; [|cbn; congruence].
    destruct (negb (nonempty bat)); [cbn; congruence|].
    destruct (negb (path_exists env bat)); [cbn; congruence|].
    match goal with
    | |- context [_start_process env miner_id ?e ?a ?w st2] =>
        pose proof (hash_start_process env miner_id e a w st2) as H3;
        destruct (_start_process env miner_id e a w st2) as [out st3]
    end.
    cbn [snd] in *. cbn. congruence.
  - match goal with
    | |- context [path_exists env ?e] => destruct (negb (path_exists env e))
    end; [cbn; congruence|].
    destruct (String.eqb (lower miner_id) "xmrig").
    + match goal with
      | |- context [_write_xmrig_config env ?e st1] =>
          pose proof (hash_write_config env e st1) as H2;
          destruct (_write_xmrig_config env e st1) as [cfg st2]
      end.
      cbn [snd] in H2.
      destruct (split_args _) as [args|]; [|cbn; congruence].
      match goal with
      | |- context [_start_process env miner_id ?e ?a ?w st2] =>
          pose proof (hash_start_process env miner_id e a w st2) as H3;
          destruct (_start_process env miner_id e a w st2) as [out st3]
      end.
      cbn [snd] in *. cbn. congruence.
    + destruct (split_args _) as [args|]; [|cbn; congruence].
      match goal with
      | |- context [_start_process env miner_id ?e ?a ?w st1] =>
          pose proof (hash_start_process env miner_id e a w st1) as H3;
          destruct (_start_process env miner_id e a w st1) as [out st3]
      end.
      cbn [snd] in *. cbn. congruence.
Qed.

(** While the attribute does not exist no line stores a sample. *)
Lemma none_process_line (miner_id line : string) (st : State) :
  last_hashrate st = None ->
  last_hashrate (process_line miner_id line st) = None.
Proof.
  intros H. unfold process_line.
  assert (E : last_hashrate
                (match _maybe_capture_hashrate miner_id line st with
                 | Ok st' => st'
                 | Raise _ => st
                 end) = None).
  { unfold _maybe_capture_hashrate.
    destruct (negb (String.eqb (lower miner_id) "xmrig")); [exact H|].
    destruct (hashrate_match (strip_ansi line)) as [[val unit]|]; [|exact H].
    rewrite H. exact H. }
  exact E.
Qed.

Lemma none_on_ready_read (env : Env) (miner_id : string) (h : handle) (st : State) :
  last_hashrate st = None ->
  forall st', _on_ready_read env miner_id h st = Ok st' -> last_hashrate st' = None.
Proof.
  intros H st'. unfold _on_ready_read.
  destruct (Decode.decode_process_bytes _ _ _) as [text|e]; [|discriminate].
  destruct (negb (nonempty text)); [intros [= <-]; exact H|].
  intros [= <-]. revert st H.
  induction (splitlines text) as [|line lines IH]; intros st H; [exact H|].
  simpl. apply IH. apply none_process_line. exact H.
Qed.

Lemma none_step (env : Env) (i : Input) (st : State) :
  last_hashrate st = None -> last_hashrate (step env i st) = None.
Proof.
  intros H. destruct i as [mid|mid|mid|mid| |h sig|h]; cbn [step].
  - rewrite hash_start. exact H.
  - rewrite hash_stop. exact H.
  - rewrite hash_kill. exact H.
  - unfold toggle_pause_miner. destruct (is_paused st mid);
      [rewrite hash_resume | rewrite hash_pause]; exact H.
  - destruct (timers st) as [|mid rest]; [exact H|].
    unfold _escalate_kill_if_running.
    destruct (is_running (set_timers rest st) mid); [|exact H].
    rewrite hash_kill. exact H.
  - rewrite hash_deliver. exact H.
  - destruct (qprocs st !! h) as [[q owner]|]; [|exact H].
    destruct (_on_ready_read env owner h st) as [st'|e] eqn:E; [|exact H].
    apply (none_on_ready_read env owner h st H st' E).
Qed.

(** From a state in which [last_hashrate] does not exist, as after
    [__init__], no run of the event loop creates it: no hashrate sample
    is ever stored. *)
Lemma hashrate_attribute_never_created (env : Env) (inputs : list Input) :
  forall st, last_hashrate st = None -> last_hashrate (run env inputs st) = None.
Proof.
  unfold run. induction inputs as [|i inputs IH]; intros st H; [exact H|].
  simpl. apply IH. apply none_step. exact H.
Qed.

End HashrateNever.
